(** * OVN Control Platform: policy template automation

    A shallow embedding of [examples/template_automation.py]: the template
    client ([OVNCPTemplateClient]), the four tier deployers of
    [InfrastructureDeployer] and the [main] driver, together with the
    properties of the orchestration workflow.

    Python dictionaries describing entities are finite maps from attribute
    names to dynamically typed values; subscripting a missing key raises
    [KeyError], [dict.get] falls back to its default.  The remote backend is
    an arbitrary state machine answering HTTP POST requests; every request
    and every log record is written to a trace.  [list_templates] is not
    called by the deployers and is left out. *)

From Stdlib Require Import ZArith List Bool Ascii.
From stdpp Require Import gmap strings list fin_maps.

Set Warnings "-register-all".
Open Scope string_scope.
Open Scope list_scope.

(** ** Values *)

(** Attribute values of entity dictionaries and of variable sets: the
    primitive Python values that can cross the service boundary, and lists
    of them.  Floating-point numbers and dictionary-valued attributes are
    left out. *)
Inductive pyval : Type :=
  | PNone
  | PBool (b : bool)
  | PInt (z : Z)
  | PStr (s : string)
  | PList (l : list pyval).

(** Decoded JSON bodies, as returned by [response.json()] (numbers are
    integers). *)
Inductive json : Type :=
  | JNull
  | JBool (b : bool)
  | JInt (z : Z)
  | JStr (s : string)
  | JArr (l : list json)
  | JObj (o : gmap string json).

(** Exceptions the script can raise. *)
Inductive exn : Type :=
  | KeyError (k : pyval)
  | TypeError (what : string)
  | ConnectionError
  | HTTPError (status : Z)
  | JSONDecodeError.

Inductive result (A : Type) : Type :=
  | Ok (a : A)
  | Raise (e : exn).
Arguments Ok {A} a.
Arguments Raise {A} e.

#[global] Instance result_ret : MRet result := @Ok.
#[global] Instance result_bind : MBind result := fun A B f r =>
  match r with
  | Ok a => f a
  | Raise e => Raise e
  end.

(** A dictionary with string keys, as the entity descriptions and the
    variable sets are. *)
Abbreviation dict := (gmap string pyval).

(** [d[k]]: subscripting raises [KeyError] on a missing key. *)
Definition getitem (d : dict) (k : string) : result pyval :=
  match d !! k with
  | Some v => Ok v
  | None => Raise (KeyError (PStr k))
  end.

(** [d.get(k, dflt)]. *)
Definition get (d : dict) (k : string) (dflt : pyval) : pyval :=
  match d !! k with
  | Some v => v
  | None => dflt
  end.

(** Iterating a string yields its characters. *)
Fixpoint chars (s : string) : list pyval :=
  match s with
  | EmptyString => []
  | String c s' => PStr (String c EmptyString) :: chars s'
  end.

(** [iter(v)]: lists and strings are iterable, the other values are not. *)
Definition py_iter (v : pyval) : result (list pyval) :=
  match v with
  | PList l => Ok l
  | PStr s => Ok (chars s)
  | _ => Raise (TypeError "object is not iterable")
  end.

(** The items handed to [str.join] must all be strings. *)
Fixpoint expect_strs (l : list pyval) : result (list string) :=
  match l with
  | [] => Ok []
  | PStr s :: l' => ss ← expect_strs l'; Ok (s :: ss)
  | _ :: _ => Raise (TypeError "sequence item: expected str instance")
  end.

(** [sep.join(v)]. *)
Definition str_join (sep : string) (v : pyval) : result pyval :=
  items ← py_iter v;
  ss ← expect_strs items;
  Ok (PStr (String.concat sep ss)).

(** Lists are unhashable; every other value can be a dictionary key. *)
Definition hashable (v : pyval) : bool :=
  match v with
  | PList _ => false
  | _ => true
  end.

(** Equality of dictionary keys: [True == 1] and [False == 0] in Python. *)
Definition key_eqb (a b : pyval) : bool :=
  match a, b with
  | PNone, PNone => true
  | PBool x, PBool y => bool_decide (x = y)
  | PBool x, PInt y | PInt y, PBool x => bool_decide (Z.b2z x = y)
  | PInt x, PInt y => bool_decide (x = y)
  | PStr x, PStr y => bool_decide (x = y)
  | _, _ => false
  end.

(** A dictionary keyed by arbitrary hashable values, in insertion order
    (the [service_ips] map is keyed by whatever the [name] attributes
    hold). *)
Definition pydict := list (pyval * pyval).

Fixpoint pydict_lookup (d : pydict) (k : pyval) : option pyval :=
  match d with
  | [] => None
  | (k', v) :: d' => if key_eqb k' k then Some v else pydict_lookup d' k
  end.

(** [d[k] = v]: an existing key keeps its place and gets the new value, a
    new key goes last. *)
Fixpoint pydict_store (d : pydict) (k v : pyval) : pydict :=
  match d with
  | [] => [(k, v)]
  | (k', v') :: d' =>
      if key_eqb k' k then (k', v) :: d' else (k', v') :: pydict_store d' k v
  end.

(** [k in d]: hashing an unhashable key raises [TypeError]. *)
Definition pydict_contains (d : pydict) (k : pyval) : result bool :=
  if hashable k then Ok (bool_decide (is_Some (pydict_lookup d k)))
  else Raise (TypeError "unhashable type").

(** [d[k]]. *)
Definition pydict_getitem (d : pydict) (k : pyval) : result pyval :=
  if hashable k then
    match pydict_lookup d k with
    | Some v => Ok v
    | None => Raise (KeyError k)
    end
  else Raise (TypeError "unhashable type").

(** [d.get(k, dflt)]. *)
Definition pydict_get (d : pydict) (k dflt : pyval) : result pyval :=
  if hashable k then
    match pydict_lookup d k with
    | Some v => Ok v
    | None => Ok dflt
    end
  else Raise (TypeError "unhashable type").

(** Operations on decoded JSON bodies. *)
Definition json_getitem (j : json) (k : string) : result json :=
  match j with
  | JObj o =>
      match o !! k with
      | Some v => Ok v
      | None => Raise (KeyError (PStr k))
      end
  | _ => Raise (TypeError "object is not subscriptable by str")
  end.

Definition json_truthy (j : json) : bool :=
  match j with
  | JNull => false
  | JBool b => b
  | JInt z => negb (z =? 0)%Z
  | JStr s => negb (String.eqb s EmptyString)
  | JArr l => negb (bool_decide (l = []))
  | JObj o => negb (bool_decide (size o = 0))
  end.

Definition json_len (j : json) : result nat :=
  match j with
  | JStr s => Ok (String.length s)
  | JArr l => Ok (length l)
  | JObj o => Ok (size o)
  | _ => Raise (TypeError "object has no len()")
  end.

(** ** Requests, responses and the trace *)

(** The two endpoints the deployers use:
    [/api/v1/templates/validate] and [/api/v1/templates/instantiate]. *)
Inductive endpoint : Type :=
  | Validate
  | Instantiate.

(** The [data] dictionary posted as JSON.  [validate_template] sends
    [template_id] and [variables] only; [instantiate_template] adds
    [dry_run], and [target_switch] when it is truthy. *)
Record request : Type := mkRequest {
  template_id : string;
  variables : dict;
  dry_run : option bool;
  target_switch : option string
}.

(** What [requests.post] comes back with: no response at all (the call
    itself raises), or a status code and a body that may or may not decode
    as JSON. *)
Inductive http_outcome : Type :=
  | NoResponse
  | Response (status : Z) (body : option json).

Inductive level : Type :=
  | INFO
  | ERROR.

(** The values interpolated into a log message. *)
Inductive logarg : Type :=
  | AStr (s : string)
  | AVal (v : pyval)
  | AJson (j : json)
  | ALen (n : nat)
  | AExn (e : exn).

Inductive event : Type :=
  | Log (lvl : level) (msg : string) (args : list logarg)
  | Post (ep : endpoint) (data : request) (out : http_outcome).

(** ** The infrastructure definition *)

(** One tier of the [infrastructure] dictionary of [main]: its [switch] and
    its list of entities (stored under [servers], [services], [databases]
    or [resources]). *)
Record tier : Type := mkTier {
  tier_switch : string;
  tier_entities : list dict
}.

Record topology : Type := mkTopology {
  web_tier : tier;
  app_tier : tier;
  data_tier : tier;
  secure_resources : tier
}.

Definition strs (l : list string) : pyval := PList (PStr <$> l).

(** The literal of [main]. *)
Definition infrastructure : topology := {|
  web_tier := mkTier "ls-web" [
    {[ "name" := PStr "web-1"; "ip" := PStr "10.0.1.10";
       "allowed_sources" := PStr "0.0.0.0/0" ]};
    {[ "name" := PStr "web-2"; "ip" := PStr "10.0.1.11";
       "allowed_sources" := PStr "0.0.0.0/0" ]} ];
  app_tier := mkTier "ls-app" [
    {[ "name" := PStr "api-gateway"; "ip" := PStr "10.0.2.10";
       "port" := PInt 8080;
       "dependencies" := strs ["user-service"; "order-service"] ]};
    {[ "name" := PStr "user-service"; "ip" := PStr "10.0.2.11";
       "port" := PInt 8081;
       "dependencies" := strs ["auth-service"] ]};
    {[ "name" := PStr "order-service"; "ip" := PStr "10.0.2.12";
       "port" := PInt 8082;
       "dependencies" := strs ["user-service"; "payment-service"] ]};
    {[ "name" := PStr "payment-service"; "ip" := PStr "10.0.2.13";
       "port" := PInt 8083;
       "dependencies" := strs [] ]};
    {[ "name" := PStr "auth-service"; "ip" := PStr "10.0.2.14";
       "port" := PInt 8084;
       "dependencies" := strs [] ]} ];
  data_tier := mkTier "ls-data" [
    {[ "name" := PStr "users-db"; "type" := PStr "postgresql";
       "ip" := PStr "10.0.3.10"; "app_subnet" := PStr "10.0.2.0/24";
       "backup_server" := PStr "10.0.100.50";
       "enable_replication" := PBool true;
       "replicas" := strs ["10.0.3.11"; "10.0.3.12"] ]};
    {[ "name" := PStr "orders-db"; "type" := PStr "mysql";
       "ip" := PStr "10.0.3.20"; "app_subnet" := PStr "10.0.2.0/24";
       "backup_server" := PStr "10.0.100.50" ]};
    {[ "name" := PStr "cache"; "type" := PStr "redis";
       "ip" := PStr "10.0.3.30"; "app_subnet" := PStr "10.0.2.0/24" ]} ];
  secure_resources := mkTier "ls-secure" [
    {[ "name" := PStr "admin-panel"; "ip" := PStr "10.0.5.10";
       "port" := PInt 443;
       "authorized_users" := strs ["10.0.100.10"; "10.0.100.11"];
       "require_encryption" := PBool true ]};
    {[ "name" := PStr "monitoring"; "ip" := PStr "10.0.5.20";
       "port" := PInt 3000;
       "authorized_users" :=
         strs ["10.0.100.10"; "10.0.100.11"; "10.0.100.12"];
       "require_encryption" := PBool true ]} ]
|}.

(** ** The deployment monad *)

Section Deployment.

(** The backend: its state and how it answers a request.  The base URL
    and the authorization header of the client are fixed for a run and
    belong to it. *)
Context {World : Type}.
Variable backend : World -> endpoint -> request -> World * http_outcome.

(** A computation emits a trace, moves the backend and returns or
    raises. *)
Definition M (A : Type) : Type := World -> list event * World * result A.

Definition ret {A} (a : A) : M A := fun w => ([], w, Ok a).

Definition bind {A B} (m : M A) (k : A -> M B) : M B := fun w =>
  match m w with
  | (t1, w1, Ok a) =>
      match k a w1 with
      | (t2, w2, r) => (t1 ++ t2, w2, r)
      end
  | (t1, w1, Raise e) => (t1, w1, Raise e)
  end.

Definition raise {A} (e : exn) : M A := fun w => ([], w, Raise e).

Definition lift {A} (r : result A) : M A := fun w => ([], w, r).

Definition log (lvl : level) (msg : string) (args : list logarg) : M unit :=
  fun w => ([Log lvl msg args], w, Ok tt).

(** [try: body except Exception as e: handler(e)]. *)
Definition try_except {A} (body : M A) (handler : exn -> M A) : M A := fun w =>
  match body w with
  | (t1, w1, Ok a) => (t1, w1, Ok a)
  | (t1, w1, Raise e) =>
      match handler e w1 with
      | (t2, w2, r) => (t1 ++ t2, w2, r)
      end
  end.

(** [for x in l: body(x)]. *)
Fixpoint for_each {A} (body : A -> M unit) (l : list A) : M unit :=
  match l with
  | [] => ret tt
  | x :: l' => bind (body x) (fun _ => for_each body l')
  end.

Notation "x <- m ;; k" := (bind m (fun x => k))
  (at level 100, m at next level, right associativity, only parsing).
Notation "m ;;; k" := (bind m (fun _ => k))
  (at level 100, right associativity, only parsing).

(** *** OVNCPTemplateClient *)

Definition requests_post (ep : endpoint) (data : request)
  : M (Z * option json) := fun w =>
  let '(w', out) := backend w ep data in
  ([Post ep data out], w',
   match out with
   | NoResponse => Raise ConnectionError
   | Response status body => Ok (status, body)
   end).

(** [response.raise_for_status()]: 4xx and 5xx raise. *)
Definition raise_for_status (response : Z * option json) : result unit :=
  if bool_decide (400 <= response.1 < 600)%Z
  then Raise (HTTPError response.1) else Ok tt.

(** [response.json()]. *)
Definition response_json (response : Z * option json) : result json :=
  match response.2 with
  | Some j => Ok j
  | None => Raise JSONDecodeError
  end.

(** The [data] of [validate_template]. *)
Definition validate_data (template_id : string) (variables : dict)
  : request :=
  mkRequest template_id variables None None.

Definition validate_template (template_id : string) (variables : dict)
  : M json :=
  let data := validate_data template_id variables in
  response <- requests_post Validate data ;;
  lift (raise_for_status response) ;;;
  lift (response_json response).

(** The [data] of [instantiate_template]: [target_switch] is added only
    when it is truthy. *)
Definition instantiate_data (template_id : string) (variables : dict)
    (target_switch : option string) (dry_run : bool) : request :=
  let data := mkRequest template_id variables (Some dry_run) None in
  match target_switch with
  | Some s =>
      if negb (String.eqb s EmptyString)
      then mkRequest template_id variables (Some dry_run) (Some s)
      else data
  | None => data
  end.

Definition instantiate_template (template_id : string) (variables : dict)
    (target_switch : option string) (dry_run : bool) : M json :=
  let data := instantiate_data template_id variables target_switch dry_run in
  response <- requests_post Instantiate data ;;
  lift (raise_for_status response) ;;;
  lift (response_json response).

(** *** InfrastructureDeployer *)

(** [len(result['instance']['rules'])]. *)
Definition rule_count (reply : json) : result nat :=
  instance ← json_getitem reply "instance";
  rules ← json_getitem instance "rules";
  json_len rules.

(** The variables of the validation call (lines 95-100). *)
Definition web_server_validate_variables (server : dict) : result dict :=
  server_ip ← getitem server "ip";
  Ok {[ "server_ip" := server_ip;
        "allowed_sources" := get server "allowed_sources" (PStr "0.0.0.0/0");
        "enable_ssh" := get server "enable_ssh" (PBool true);
        "ssh_sources" := get server "ssh_sources" (PStr "10.0.100.0/24") ]}.

(** The variables of the instantiation call (lines 109-114). *)
Definition web_server_instantiate_variables (server : dict) : result dict :=
  server_ip ← getitem server "ip";
  Ok {[ "server_ip" := server_ip;
        "allowed_sources" := get server "allowed_sources" (PStr "0.0.0.0/0");
        "enable_ssh" := get server "enable_ssh" (PBool true);
        "ssh_sources" := get server "ssh_sources" (PStr "10.0.100.0/24") ]}.

(** The body of the loop of [deploy_web_tier]. *)
Definition deploy_web_server (switch : string) (server : dict) : M unit :=
  name <- lift (getitem server "name") ;;
  ip <- lift (getitem server "ip") ;;
  log INFO "Configuring web server {} ({})" [AVal name; AVal ip] ;;;
  (* Validate first *)
  vars <- lift (web_server_validate_variables server) ;;
  validation <- validate_template "web-server" vars ;;
  valid <- lift (json_getitem validation "valid") ;;
  if negb (json_truthy valid) then
    name <- lift (getitem server "name") ;;
    errors <- lift (json_getitem validation "errors") ;;
    log ERROR "Validation failed for {}: {}" [AVal name; AJson errors]
    (* continue *)
  else
    (* Deploy *)
    vars <- lift (web_server_instantiate_variables server) ;;
    reply <- instantiate_template "web-server" vars (Some switch) false ;;
    n <- lift (rule_count reply) ;;
    name <- lift (getitem server "name") ;;
    log INFO "Created {} rules for {}" [ALen n; AVal name].

Definition deploy_web_tier (servers : list dict) (switch : string) : M unit :=
  log INFO "Deploying web tier on switch {}" [AStr switch] ;;;
  for_each (deploy_web_server switch) servers.

(** [{s['name']: s['ip'] for s in services}], filled left to right. *)
Fixpoint build_service_ips (services : list dict) (acc : pydict)
  : result pydict :=
  match services with
  | [] => Ok acc
  | s :: rest =>
      name ← getitem s "name";
      ip ← getitem s "ip";
      if hashable name then build_service_ips rest (pydict_store acc name ip)
      else Raise (TypeError "unhashable type")
  end.

(** The inner loop: the IPs of the dependencies that are service names,
    appended in the order of the dependencies. *)
Fixpoint resolve_dependencies (service_ips : pydict) (deps : list pyval)
    (allowed_ips : list pyval) : result (list pyval) :=
  match deps with
  | [] => Ok allowed_ips
  | dep :: rest =>
      present ← pydict_contains service_ips dep;
      if (present : bool) then
        ip ← pydict_getitem service_ips dep;
        resolve_dependencies service_ips rest (allowed_ips ++ [ip])
      else resolve_dependencies service_ips rest allowed_ips
  end.

Definition allowed_ips_of (service_ips : pydict) (service : dict)
  : result (list pyval) :=
  deps ← py_iter (get service "dependencies" (PList []));
  resolve_dependencies service_ips deps [].

Definition microservice_variables (service : dict) (allowed_ips : list pyval)
  : result dict :=
  service_name ← getitem service "name";
  service_ip ← getitem service "ip";
  allowed_services ← str_join "," (PList allowed_ips);
  Ok {[ "service_name" := service_name;
        "service_ip" := service_ip;
        "service_port" := get service "port" (PInt 8080);
        "allowed_services" := allowed_services;
        "monitoring_subnet" := PStr "10.0.200.0/24" ]}.

(** The body of the loop of [deploy_microservices]. *)
Definition deploy_microservice (service_ips : pydict) (switch : string)
    (service : dict) : M unit :=
  (* Convert dependency names to IPs *)
  allowed_ips <- lift (allowed_ips_of service_ips service) ;;
  name <- lift (getitem service "name") ;;
  log INFO "Configuring service {} with dependencies: {}"
    [AVal name; AVal (get service "dependencies" (PList []))] ;;;
  vars <- lift (microservice_variables service allowed_ips) ;;
  reply <- instantiate_template "microservice" vars (Some switch) false ;;
  n <- lift (rule_count reply) ;;
  name <- lift (getitem service "name") ;;
  log INFO "Created {} rules for {}" [ALen n; AVal name].

Definition deploy_microservices (services : list dict) (switch : string)
  : M unit :=
  log INFO "Deploying microservices on switch {}" [AStr switch] ;;;
  (* Build service dependency map *)
  service_ips <- lift (build_service_ips services []) ;;
  for_each (deploy_microservice service_ips switch) services.

Definition default_ports : pydict :=
  [ (PStr "mysql", PInt 3306);
    (PStr "postgresql", PInt 5432);
    (PStr "mongodb", PInt 27017);
    (PStr "redis", PInt 6379) ].

(** [db.get('port', default_ports.get(db['type'], 3306))]: the default
    is evaluated whether or not the port is given. *)
Definition database_port (db : dict) : result pyval :=
  type ← getitem db "type";
  dflt ← pydict_get default_ports type (PInt 3306);
  Ok (get db "port" dflt).

Definition database_variables (db : dict) (port : pyval) : result dict :=
  db_ip ← getitem db "ip";
  app_subnet ← getitem db "app_subnet";
  replica_ips ← str_join "," (get db "replicas" (PList []));
  Ok {[ "db_ip" := db_ip;
        "db_port" := port;
        "app_subnet" := app_subnet;
        "backup_server" := get db "backup_server" PNone;
        "enable_replication" := get db "enable_replication" (PBool false);
        "replica_ips" := replica_ips ]}.

(** The body of the loop of [deploy_databases]. *)
Definition deploy_database (switch : string) (db : dict) : M unit :=
  name <- lift (getitem db "name") ;;
  type <- lift (getitem db "type") ;;
  log INFO "Configuring database {} ({})" [AVal name; AVal type] ;;;
  (* Set default port based on DB type *)
  port <- lift (database_port db) ;;
  vars <- lift (database_variables db port) ;;
  reply <- instantiate_template "database-server" vars (Some switch) false ;;
  n <- lift (rule_count reply) ;;
  name <- lift (getitem db "name") ;;
  log INFO "Created {} rules for {}" [ALen n; AVal name].

Definition deploy_databases (databases : list dict) (switch : string)
  : M unit :=
  log INFO "Deploying databases on switch {}" [AStr switch] ;;;
  for_each (deploy_database switch) databases.

Definition zero_trust_variables (resource : dict) : result dict :=
  resource_ip ← getitem resource "ip";
  resource_port ← getitem resource "port";
  users ← getitem resource "authorized_users";
  authorized_users ← str_join "," users;
  Ok {[ "resource_ip" := resource_ip;
        "resource_port" := resource_port;
        "authorized_users" := authorized_users;
        "require_encryption" := get resource "require_encryption" (PBool true) ]}.

(** The body of the loop of [deploy_zero_trust_resources]. *)
Definition deploy_zero_trust_resource (switch : string) (resource : dict)
  : M unit :=
  name <- lift (getitem resource "name") ;;
  log INFO "Securing resource {} with zero-trust policy" [AVal name] ;;;
  vars <- lift (zero_trust_variables resource) ;;
  reply <- instantiate_template "zero-trust" vars (Some switch) false ;;
  n <- lift (rule_count reply) ;;
  name <- lift (getitem resource "name") ;;
  log INFO "Created {} rules for {}" [ALen n; AVal name].

Definition deploy_zero_trust_resources (resources : list dict)
    (switch : string) : M unit :=
  log INFO "Deploying zero-trust policies on switch {}" [AStr switch] ;;;
  for_each (deploy_zero_trust_resource switch) resources.

(** *** main *)

(** The [try] block of [main] with its handler, for any infrastructure
    definition. *)
Definition main_body (infrastructure : topology) : M unit :=
  try_except
    ((* Deploy all tiers *)
     log INFO "Starting infrastructure deployment..." [] ;;;
     (* 1. Web tier *)
     deploy_web_tier (tier_entities (web_tier infrastructure))
                     (tier_switch (web_tier infrastructure)) ;;;
     (* 2. Application tier *)
     deploy_microservices (tier_entities (app_tier infrastructure))
                          (tier_switch (app_tier infrastructure)) ;;;
     (* 3. Data tier *)
     deploy_databases (tier_entities (data_tier infrastructure))
                      (tier_switch (data_tier infrastructure)) ;;;
     (* 4. Secure resources *)
     deploy_zero_trust_resources
       (tier_entities (secure_resources infrastructure))
       (tier_switch (secure_resources infrastructure)) ;;;
     log INFO "Infrastructure deployment completed successfully!" [])
    (fun e => log ERROR "Deployment failed: {}" [AExn e] ;;; raise e).

Definition main : M unit := main_body infrastructure.

End Deployment.

Arguments M World A : clear implicits.

(** ** Observations on traces *)

(** What a client method makes of the outcome of its request: the
    exception it raises or the decoded body it returns. *)
Definition client_result (out : http_outcome) : result json :=
  match out with
  | NoResponse => Raise ConnectionError
  | Response status body =>
      if bool_decide (400 <= status < 600)%Z then Raise (HTTPError status)
      else match body with
           | Some j => Ok j
           | None => Raise JSONDecodeError
           end
  end.

(** The exception a client method raises on this outcome, if any. *)
Definition service_error (out : http_outcome) : option exn :=
  match client_result out with
  | Ok _ => None
  | Raise e => Some e
  end.

(** The validation verdict: the request went through and [valid] is
    truthy. *)
Definition verdict (out : http_outcome) : bool :=
  match client_result out with
  | Ok body =>
      match json_getitem body "valid" with
      | Ok valid => json_truthy valid
      | Raise _ => false
      end
  | Raise _ => false
  end.

(** The requests of a trace, in order. *)
Definition post_of (ev : event) : option (endpoint * request * http_outcome) :=
  match ev with
  | Post ep data out => Some (ep, data, out)
  | Log _ _ _ => None
  end.

Definition posts (tr : list event) : list (endpoint * request * http_outcome) :=
  omap post_of tr.

Definition is_validate (p : endpoint * request * http_outcome) : bool :=
  match p.1.1 with
  | Validate => true
  | Instantiate => false
  end.

Definition validations (tr : list event)
  : list (endpoint * request * http_outcome) :=
  List.filter is_validate (posts tr).

Definition instantiations (tr : list event)
  : list (endpoint * request * http_outcome) :=
  List.filter (fun p => negb (is_validate p)) (posts tr).

(** A run of [for x in l: body(x)], entity by entity: the loop ends with
    the list, or at the first entity whose body raises. *)
Inductive loop_run {World A : Type} (body : A -> M World unit)
  : list A -> World -> list event -> World -> result unit -> Prop :=
  | loop_done w :
      loop_run body [] w [] w (Ok tt)
  | loop_raise x l w t w' e :
      body x w = (t, w', Raise e) ->
      loop_run body (x :: l) w t w' (Raise e)
  | loop_next x l w t1 w1 t2 w2 r :
      body x w = (t1, w1, Ok tt) ->
      loop_run body l w1 t2 w2 r ->
      loop_run body (x :: l) w (t1 ++ t2) w2 r.

(** The elements of [l] at the positions where [bs] is true. *)
Fixpoint select {A} (bs : list bool) (l : list A) : list A :=
  match bs, l with
  | b :: bs', x :: l' => if b then x :: select bs' l' else select bs' l'
  | _, _ => []
  end.

(** The verdicts of the validation requests of a trace, in order. *)
Definition verdicts (tr : list event) : list bool :=
  (fun p => verdict p.2) <$> validations tr.

(** Validation gates instantiation: every instantiation request comes after
    a validation request for the same template and variables that was
    answered with a truthy [valid]. *)
Definition validation_gates_instantiation (tr : list event) : Prop :=
  forall i d out,
    posts tr !! i = Some (Instantiate, d, out) ->
    exists j dv outv,
      (j < i)%nat /\
      posts tr !! j = Some (Validate, dv, outv) /\
      template_id dv = template_id d /\
      variables dv = variables d /\
      verdict outv = true.

(** The variables [deploy_microservice] sends for a service, given the
    name-to-IP map of its tier. *)
Definition microservice_request_variables (service_ips : pydict)
    (service : dict) : result dict :=
  allowed_ips ← allowed_ips_of service_ips service;
  microservice_variables service allowed_ips.

(** The same, from the services of the tier. *)
Definition microservice_variables_in (services : list dict) (service : dict)
  : result dict :=
  service_ips ← build_service_ips services [];
  microservice_request_variables service_ips service.

(** The variables [deploy_database] sends for a database. *)
Definition database_request_variables (db : dict) : result dict :=
  port ← database_port db;
  database_variables db port.

(** A request is for template [t]. *)
Definition for_template (t : string)
    (p : endpoint * request * http_outcome) : Prop :=
  template_id p.1.2 = t.

(** The requests [ps] are one request to [ep] per entity, in the order of
    the entities, each carrying the variables built for its entity. *)
Definition attempted (vars_of : dict -> result dict) (ep : endpoint)
    (entities : list dict) (ps : list (endpoint * request * http_outcome))
  : Prop :=
  Forall2 (fun x p => p.1.1 = ep /\ vars_of x = Ok (variables p.1.2))
          entities ps.

(** A run is fail-fast: a request whose client call raises is the last
    event of the trace, and the run raises that exception. *)
Definition fail_fast {A} (tr : list event) (r : result A) : Prop :=
  forall i ep d out e,
    tr !! i = Some (Post ep d out) ->
    service_error out = Some e ->
    r = Raise e /\ length tr = S i.

(** Results that follow the data model: a validation result has a boolean
    [valid] and a list of [errors], an instantiation result has a list of
    rules under [instance]. *)
Definition validation_result_ok (body : json) : bool :=
  match json_getitem body "valid", json_getitem body "errors" with
  | Ok (JBool _), Ok (JArr _) => true
  | _, _ => false
  end.

Definition instantiation_result_ok (reply : json) : bool :=
  match json_getitem reply "instance" with
  | Ok instance =>
      match json_getitem instance "rules" with
      | Ok (JArr _) => true
      | _ => false
      end
  | Raise _ => false
  end.

(** The backend answered the request without a service error and with a
    result of the right shape. *)
Definition well_behaved (p : endpoint * request * http_outcome) : bool :=
  match client_result p.2 with
  | Ok body =>
      match p.1.1 with
      | Validate => validation_result_ok body
      | Instantiate => instantiation_result_ok body
      end
  | Raise _ => false
  end.

(** A server description has the two attributes the deployer subscripts. *)
Definition well_formed_server (server : dict) : Prop :=
  is_Some (server !! "name") /\ is_Some (server !! "ip").

(** Every run of [m] is fail-fast. *)
Definition ff_run {World A} (m : M World A) : Prop :=
  forall w, fail_fast (m w).1.1 (m w).2.

(** The requests of one pass through the body of a loop that instantiates
    without validating: none when the body raises before its call, else the
    one instantiation request with the variables built for the entity. *)
Definition single_request (t switch : string) (vars_of : result dict)
    (tr : list event) (r : result unit) : Prop :=
  (posts tr = [] /\ exists e, r = Raise e) \/
  (exists vars out,
      vars_of = Ok vars /\
      posts tr = [(Instantiate, instantiate_data t vars (Some switch) false,
                   out)]).

(** ** Specification-side definitions *)

(** The port of an engine type, in the words of the specification: the
    fixed lookup table, and mysql's port for any other type. *)
Definition resolvePort (type : string) : Z :=
  if decide (type = "mysql") then 3306
  else if decide (type = "postgresql") then 5432
  else if decide (type = "mongodb") then 27017
  else if decide (type = "redis") then 6379
  else 3306.

(** The name of a service, when it is a string. *)
Definition service_name (service : dict) : option string :=
  match service !! "name" with
  | Some (PStr n) => Some n
  | _ => None
  end.

Definition service_names (services : list dict) : list string :=
  omap service_name services.

(** The IP of the service of the tier that is called [name]. *)
Definition tier_ip (services : list dict) (name : string) : option pyval :=
  s ← List.find (fun s => bool_decide (service_name s = Some name)) services;
  s !! "ip".

(** Dependency resolution, in the words of the specification: the IPs of
    the dependency names present in the tier, in the order the names are
    listed; names absent from the tier are left out. *)
Definition resolve (services : list dict) (dependencies : list string)
  : list pyval :=
  omap (tier_ip services) dependencies.

(** A service description with a string name and an IP. *)
Definition well_formed_service (service : dict) : Prop :=
  is_Some (service_name service) /\ is_Some (service !! "ip").

(** The four entity kinds and the loop body that deploys an entity of each
    kind; [service_ips] is the tier context of a service. *)
Inductive kind : Type :=
  | Server
  | Service
  | Database
  | SecureResource.

Definition deploy_entity {World : Type}
    (backend : World -> endpoint -> request -> World * http_outcome)
    (k : kind) (service_ips : pydict) (switch : string) (entity : dict)
  : M World unit :=
  match k with
  | Server => deploy_web_server backend switch entity
  | Service => deploy_microservice backend service_ips switch entity
  | Database => deploy_database backend switch entity
  | SecureResource => deploy_zero_trust_resource backend switch entity
  end.

(** The variables built for an entity of each kind. *)
Definition entity_variables (k : kind) (service_ips : pydict) (entity : dict)
  : result dict :=
  match k with
  | Server => web_server_validate_variables entity
  | Service => microservice_request_variables service_ips entity
  | Database => database_request_variables entity
  | SecureResource => zero_trust_variables entity
  end.

(** ** Sample backends and inputs *)

Definition accepted : json :=
  JObj {[ "valid" := JBool true; "errors" := JArr [] ]}.

Definition rejected : json :=
  JObj {[ "valid" := JBool false;
          "errors" := JArr [JStr "server_ip is not allowed"] ]}.

Definition created : json :=
  JObj {[ "instance" :=
            JObj {[ "rules" := JArr [JStr "allow-web"; JStr "allow-ssh";
                                     JStr "drop-other"] ]} ]}.

(** A backend that counts the requests it has served.  It rejects the
    validation of the server 10.0.1.11 and accepts everything else. *)
Definition stub_backend (served : nat) (ep : endpoint) (data : request)
  : nat * http_outcome :=
  (S served,
   match ep with
   | Validate =>
       match variables data !! "server_ip" with
       | Some (PStr ip) =>
           if String.eqb ip "10.0.1.11" then Response 200 (Some rejected)
           else Response 200 (Some accepted)
       | _ => Response 200 (Some accepted)
       end
   | Instantiate => Response 201 (Some created)
   end).

(** The same backend, out of service once it has served [n] requests. *)
Definition outage_backend (n : nat) (served : nat) (ep : endpoint)
    (data : request) : nat * http_outcome :=
  if (n <=? served)%nat then (S served, Response 503 None)
  else stub_backend served ep data.

Definition web_1 : dict :=
  {[ "name" := PStr "web-1"; "ip" := PStr "10.0.1.10" ]}.

Definition web_2 : dict :=
  {[ "name" := PStr "web-2"; "ip" := PStr "10.0.1.11" ]}.

Definition web_3 : dict :=
  {[ "name" := PStr "web-3"; "ip" := PStr "10.0.1.12";
     "enable_ssh" := PBool false ]}.

Definition three_servers : list dict := [web_1; web_2; web_3].

(** The example of the specification: A depends on B and Z, and only B
    is in the tier. *)
Definition service_A : dict :=
  {[ "name" := PStr "A"; "ip" := PStr "ip1";
     "dependencies" := strs ["B"; "Z"] ]}.

Definition service_B : dict :=
  {[ "name" := PStr "B"; "ip" := PStr "ip2" ]}.

(** A database of an engine type outside the table, without a port. *)
Definition oracle_db : dict :=
  {[ "name" := PStr "legacy"; "type" := PStr "oracle";
     "ip" := PStr "10.0.3.40"; "app_subnet" := PStr "10.0.2.0/24" ]}.


(** ** The client object and list_templates *)

(** [s.rstrip('/')]: the string without its trailing slashes. *)
Fixpoint rstrip_slash (s : string) : string :=
  match s with
  | EmptyString => EmptyString
  | String c s' =>
      match rstrip_slash s' with
      | EmptyString =>
          if Ascii.eqb c "/"%char then EmptyString else String c EmptyString
      | rest => String c rest
      end
  end.

(** The attributes set by [OVNCPTemplateClient.__init__]. *)
Record OVNCPTemplateClient : Type := mkClient {
  base_url : string;
  headers : list (string * string)
}.

Definition new_client (base_url token : string) : OVNCPTemplateClient :=
  {| base_url := rstrip_slash base_url;
     headers := [ ("Authorization", String.append "Bearer " token);
                  ("Content-Type", "application/json") ] |}.

(** [n] slashes. *)
Fixpoint slashes (n : nat) : string :=
  match n with
  | O => EmptyString
  | S n' => String "/"%char (slashes n')
  end.

(** The query parameters of [list_templates]: a filter is sent only when
    it is truthy. *)
Record templates_query : Type := mkQuery {
  q_category : option string;
  q_tag : option (list string)
}.

Definition list_templates_params (category : option string)
    (tags : option (list string)) : templates_query :=
  {| q_category :=
       match category with
       | Some c => if negb (String.eqb c EmptyString) then Some c else None
       | None => None
       end;
     q_tag :=
       match tags with
       | Some (t :: ts) => Some (t :: ts)
       | _ => None
       end |}.

(** [list_templates]: one GET request, then the [templates] member of the
    decoded body.  The run gives the query sent, what came back, the
    backend afterwards and the value returned or the exception raised. *)
Definition list_templates {World : Type}
    (http_get : World -> templates_query -> World * http_outcome)
    (category : option string) (tags : option (list string))
  : World -> templates_query * http_outcome * World * result json :=
  fun w =>
    let params := list_templates_params category tags in
    let '(w', out) := http_get w params in
    (params, out, w',
     match out with
     | NoResponse => Raise ConnectionError
     | Response status body =>
         _ ← raise_for_status (status, body);
         j ← response_json (status, body);
         json_getitem j "templates"
     end).

(** ** Entities that can be deployed *)

(** A value is a string. *)
Definition is_str (v : pyval) : Prop := exists s, v = PStr s.

(** An optional attribute is absent or a list of strings. *)
Definition strs_or_absent (d : dict) (k : string) : Prop :=
  d !! k = None \/ exists l, d !! k = Some (strs l).

(** A service the deployer can handle: a string name, a string IP and
    dependencies that are strings. *)
Definition deployable_service (service : dict) : Prop :=
  (exists n, service !! "name" = Some (PStr n)) /\
  (exists ip, service !! "ip" = Some (PStr ip)) /\
  strs_or_absent service "dependencies".

(** A database the deployer can handle. *)
Definition deployable_database (db : dict) : Prop :=
  is_Some (db !! "name") /\
  (exists t, db !! "type" = Some (PStr t)) /\
  is_Some (db !! "ip") /\
  is_Some (db !! "app_subnet") /\
  strs_or_absent db "replicas".

(** A secure resource the deployer can handle. *)
Definition deployable_resource (resource : dict) : Prop :=
  is_Some (resource !! "name") /\
  is_Some (resource !! "ip") /\
  is_Some (resource !! "port") /\
  (exists l, resource !! "authorized_users" = Some (strs l)).

(** An infrastructure definition whose entities can all be deployed. *)
Definition deployable (infra : topology) : Prop :=
  Forall well_formed_server (tier_entities (web_tier infra)) /\
  Forall deployable_service (tier_entities (app_tier infra)) /\
  Forall deployable_database (tier_entities (data_tier infra)) /\
  Forall deployable_resource (tier_entities (secure_resources infra)).

(** The last service of the tier called [name] gives the IP. *)
Definition tier_ip_last (services : list dict) (name : string)
  : option pyval :=
  tier_ip (reverse services) name.

(** An infrastructure definition without entities. *)
Definition empty_infrastructure (web app data secure : string) : topology :=
  {| web_tier := mkTier web [];
     app_tier := mkTier app [];
     data_tier := mkTier data [];
     secure_resources := mkTier secure [] |}.

(** The template of each entity kind. *)
Definition template_of (k : kind) : string :=
  match k with
  | Server => "web-server"
  | Service => "microservice"
  | Database => "database-server"
  | SecureResource => "zero-trust"
  end.

(** ** More sample inputs *)

(** A second service called B. *)
Definition service_B_again : dict :=
  {[ "name" := PStr "B"; "ip" := PStr "ip3" ]}.

Definition nameless_service : dict :=
  {[ "ip" := PStr "10.0.2.99" ]}.

Definition users_db : dict :=
  {[ "name" := PStr "users-db"; "type" := PStr "postgresql";
     "ip" := PStr "10.0.3.10"; "app_subnet" := PStr "10.0.2.0/24";
     "backup_server" := PStr "10.0.100.50";
     "enable_replication" := PBool true;
     "replicas" := strs ["10.0.3.11"; "10.0.3.12"] ]}.

Definition vault : dict :=
  {[ "name" := PStr "vault"; "ip" := PStr "10.0.5.30";
     "port" := PInt 8200;
     "authorized_users" := strs ["10.0.100.10"; "10.0.100.11"] ]}.

(** A resource whose authorized users are numbers, not strings. *)
Definition badge_reader : dict :=
  {[ "name" := PStr "badge-reader"; "ip" := PStr "10.0.5.40";
     "port" := PInt 443;
     "authorized_users" := PList [PInt 7; PInt 9] ]}.

Definition small_infrastructure : topology :=
  {| web_tier := mkTier "ls-web" [web_1; web_2];
     app_tier := mkTier "ls-app" [service_A; service_B];
     data_tier := mkTier "ls-data" [oracle_db];
     secure_resources := mkTier "ls-secure" [vault] |}.

Definition oracle_db_variables : dict :=
  {[ "db_ip" := PStr "10.0.3.40"; "db_port" := PInt 3306;
     "app_subnet" := PStr "10.0.2.0/24"; "backup_server" := PNone;
     "enable_replication" := PBool false;
     "replica_ips" := PStr EmptyString ]}.

Definition web_2_variables : dict :=
  {[ "server_ip" := PStr "10.0.1.11";
     "allowed_sources" := PStr "0.0.0.0/0";
     "enable_ssh" := PBool true;
     "ssh_sources" := PStr "10.0.100.0/24" ]}.

Definition web_1_variables : dict :=
  {[ "server_ip" := PStr "10.0.1.10";
     "allowed_sources" := PStr "0.0.0.0/0";
     "enable_ssh" := PBool true;
     "ssh_sources" := PStr "10.0.100.0/24" ]}.

(** * Properties *)

(** ** The variable builders *)

Lemma expect_strs_PStr (l : list string) : expect_strs (PStr <$> l) = Ok l.
Proof.
  induction l as [|s l IH]; [reflexivity|].
  rewrite fmap_cons. cbn [expect_strs]. rewrite IH. reflexivity.
Qed.

Lemma str_join_strs (sep : string) (l : list string) :
  str_join sep (strs l) = Ok (PStr (String.concat sep l)).
Proof.
  unfold str_join, strs. cbn [py_iter mbind result_bind].
  rewrite expect_strs_PStr. reflexivity.
Qed.

Lemma get_Some (d : dict) k dflt v : d !! k = Some v -> get d k dflt = v.
Proof. unfold get. intros ->. reflexivity. Qed.

Lemma get_None (d : dict) k dflt : d !! k = None -> get d k dflt = dflt.
Proof. unfold get. intros ->. reflexivity. Qed.

Lemma getitem_Ok (d : dict) k v : getitem d k = Ok v <-> d !! k = Some v.
Proof.
  unfold getitem. destruct (d !! k); split; intros H; congruence.
Qed.


(** ** Runs of the monad *)

Section Runs.

Context {World : Type}.
Variable backend : World -> endpoint -> request -> World * http_outcome.

Lemma bind_inv {A B} (m : M World A) (k : A -> M World B) w tr w' r :
  bind m k w = (tr, w', r) ->
  (exists e, m w = (tr, w', Raise e) /\ r = Raise e) \/
  (exists t1 w1 a t2,
      m w = (t1, w1, Ok a) /\ k a w1 = (t2, w', r) /\ tr = t1 ++ t2).
Proof.
  unfold bind. destruct (m w) as [[t1 w1] [a|e]].
  - destruct (k a w1) as [[t2 w2] r2] eqn:Ek. intros [= <- <- <-].
    right. eauto 10.
  - intros [= <- <- <-]. left. eauto.
Qed.

Lemma lift_inv {A} (r0 : result A) (w : World) tr w' r :
  lift r0 w = (tr, w', r) -> tr = [] /\ w' = w /\ r0 = r.
Proof. unfold lift. intros [= <- <- <-]. auto. Qed.

Lemma log_inv lvl msg args (w : World) tr w' r :
  log lvl msg args w = (tr, w', r) ->
  tr = [Log lvl msg args] /\ w' = w /\ r = Ok tt.
Proof. unfold log. intros [= <- <- <-]. auto. Qed.

Lemma validate_template_run t vars w :
  validate_template backend t vars w =
  ([Post Validate (validate_data t vars) (backend w Validate (validate_data t vars)).2],
   (backend w Validate (validate_data t vars)).1,
   client_result (backend w Validate (validate_data t vars)).2).
Proof.
  unfold validate_template, bind, requests_post, client_result.
  destruct (backend w Validate (validate_data t vars)) as [w1 [|st body]];
    cbn [fst snd]; [reflexivity|].
  unfold lift, raise_for_status, response_json. cbn [fst snd].
  case_bool_decide; [reflexivity|]. destruct body; reflexivity.
Qed.

Lemma instantiate_template_run t vars sw dry w :
  let data := instantiate_data t vars sw dry in
  instantiate_template backend t vars sw dry w =
  ([Post Instantiate data (backend w Instantiate data).2],
   (backend w Instantiate data).1,
   client_result (backend w Instantiate data).2).
Proof.
  intros data.
  unfold instantiate_template, bind, requests_post, client_result.
  fold data.
  destruct (backend w Instantiate data) as [w1 [|st body]];
    cbn [fst snd]; [reflexivity|].
  unfold lift, raise_for_status, response_json. cbn [fst snd].
  case_bool_decide; [reflexivity|]. destruct body; reflexivity.
Qed.

Lemma validate_template_inv t vars w tr w' r :
  validate_template backend t vars w = (tr, w', r) ->
  exists out,
    tr = [Post Validate (validate_data t vars) out] /\ client_result out = r.
Proof. rewrite validate_template_run. intros [= <- <- <-]. eauto. Qed.

Lemma instantiate_template_inv t vars sw dry w tr w' r :
  instantiate_template backend t vars sw dry w = (tr, w', r) ->
  exists out,
    tr = [Post Instantiate (instantiate_data t vars sw dry) out] /\
    client_result out = r.
Proof. rewrite instantiate_template_run. intros [= <- <- <-]. eauto. Qed.

Lemma raise_inv {A} e (w : World) tr w' (r : result A) :
  raise e w = (tr, w', r) -> tr = [] /\ w' = w /\ r = Raise e.
Proof. unfold raise. intros [= <- <- <-]. auto. Qed.

Lemma try_except_inv {A} (body : M World A) handler w tr w' r :
  try_except body handler w = (tr, w', r) ->
  (exists a, body w = (tr, w', Ok a) /\ r = Ok a) \/
  (exists t1 w1 e t2,
      body w = (t1, w1, Raise e) /\ handler e w1 = (t2, w', r) /\
      tr = t1 ++ t2).
Proof.
  unfold try_except. destruct (body w) as [[t1 w1] [a|e]].
  - intros [= <- <- <-]. left. eauto.
  - destruct (handler e w1) as [[t2 w2] r2] eqn:Eh. intros [= <- <- <-].
    right. eauto 10.
Qed.

(** Case analysis of a run along the structure of the program. *)
Ltac run_inv :=
  repeat match goal with
  | H : bind _ _ _ = (_, _, _) |- _ =>
      apply bind_inv in H;
      destruct H as [(? & H & ?) | (? & ? & ? & ? & H & ? & ?)]
  | H : try_except _ _ _ = (_, _, _) |- _ =>
      apply try_except_inv in H;
      destruct H as [(? & H & ?) | (? & ? & ? & ? & H & ? & ?)]
  | H : raise _ _ = (_, _, _) |- _ =>
      apply raise_inv in H; destruct H as (? & ? & ?)
  | H : lift _ _ = (_, _, _) |- _ =>
      apply lift_inv in H; destruct H as (? & ? & ?)
  | H : log _ _ _ _ = (_, _, _) |- _ =>
      apply log_inv in H; destruct H as (? & ? & ?)
  | H : validate_template _ _ _ _ = (_, _, _) |- _ =>
      apply validate_template_inv in H; destruct H as (? & ? & ?)
  | H : instantiate_template _ _ _ _ _ _ = (_, _, _) |- _ =>
      apply instantiate_template_inv in H; destruct H as (? & ? & ?)
  | H : (if ?c then _ else _) _ = (_, _, _) |- _ =>
      let E := fresh "E" in destruct c eqn:E
  | _ => progress subst
  | H : Ok _ = Raise _ |- _ => discriminate H
  | H : Raise _ = Ok _ |- _ => discriminate H
  end.

Lemma for_each_loop_run {A} (body : A -> M World unit) l w tr w' r :
  for_each body l w = (tr, w', r) -> loop_run body l w tr w' r.
Proof.
  revert w tr w' r. induction l as [|x l IH]; intros w tr w' r H.
  - cbv in H. injection H as <- <- <-. constructor.
  - cbn [for_each] in H. apply bind_inv in H.
    destruct H as [(e & H & ->) | (t1 & w1 & [] & t2 & H & K & ->)].
    + now apply loop_raise.
    + eapply loop_next; eauto.
Qed.

Lemma verdict_true out body valid :
  client_result out = Ok body -> json_getitem body "valid" = Ok valid ->
  verdict out = json_truthy valid.
Proof. unfold verdict. intros -> ->. reflexivity. Qed.

Lemma deploy_web_server_posts switch server w tr w' r :
  deploy_web_server backend switch server w = (tr, w', r) ->
  (posts tr = [] /\ exists e, r = Raise e) \/
  (exists vars out,
      web_server_validate_variables server = Ok vars /\
      posts tr = [(Validate, validate_data "web-server" vars, out)] /\
      (r = Ok tt -> verdict out = false)) \/
  (exists vars vars' outv outi,
      web_server_validate_variables server = Ok vars /\
      web_server_instantiate_variables server = Ok vars' /\
      posts tr = [(Validate, validate_data "web-server" vars, outv);
                  (Instantiate,
                   instantiate_data "web-server" vars' (Some switch) false,
                   outi)] /\
      verdict outv = true).
Proof.
  unfold deploy_web_server. intros H. run_inv.
  all: try (left; split; [reflexivity|eauto]; fail).
  all: try (right; left;
            match goal with
            | V : web_server_validate_variables _ = Ok ?v |- _ =>
                exists v; eexists; split; [exact V|]
            end;
            split; [reflexivity|]; discriminate).
  all: try (right; left;
            match goal with
            | V : web_server_validate_variables _ = Ok ?v |- _ =>
                exists v; eexists; split; [exact V|]
            end;
            split; [reflexivity|];
            intros _; erewrite verdict_true by eassumption;
            now destruct (json_truthy _)).
  all: right; right;
    match goal with
    | V : web_server_validate_variables _ = Ok ?v,
      I : web_server_instantiate_variables _ = Ok ?v' |- _ =>
        exists v, v'; do 2 eexists; split; [exact V|]; split; [exact I|]
    end;
    split; [reflexivity|];
    erewrite verdict_true by eassumption;
    now destruct (json_truthy _).
Qed.

(** *** Traces of concatenated runs *)

Lemma posts_nil : posts [] = [].
Proof. reflexivity. Qed.

Lemma posts_log lvl msg args : posts [Log lvl msg args] = [].
Proof. reflexivity. Qed.

Lemma posts_app t1 t2 : posts (t1 ++ t2) = posts t1 ++ posts t2.
Proof. unfold posts. apply omap_app. Qed.

Lemma validations_app t1 t2 :
  validations (t1 ++ t2) = validations t1 ++ validations t2.
Proof. unfold validations. rewrite posts_app. apply List.filter_app. Qed.

Lemma instantiations_app t1 t2 :
  instantiations (t1 ++ t2) = instantiations t1 ++ instantiations t2.
Proof. unfold instantiations. rewrite posts_app. apply List.filter_app. Qed.

Lemma verdicts_app t1 t2 : verdicts (t1 ++ t2) = verdicts t1 ++ verdicts t2.
Proof. unfold verdicts. rewrite validations_app. apply fmap_app. Qed.

Lemma template_id_instantiate_data t vars sw dry :
  template_id (instantiate_data t vars sw dry) = t.
Proof.
  unfold instantiate_data. destruct sw as [s|]; [|reflexivity].
  destruct (negb _); reflexivity.
Qed.

Lemma variables_instantiate_data t vars sw dry :
  variables (instantiate_data t vars sw dry) = vars.
Proof.
  unfold instantiate_data. destruct sw as [s|]; [|reflexivity].
  destruct (negb _); reflexivity.
Qed.

Lemma web_server_variables_same server :
  web_server_instantiate_variables server =
  web_server_validate_variables server.
Proof. reflexivity. Qed.

Lemma gates_app t1 t2 :
  validation_gates_instantiation t1 ->
  validation_gates_instantiation t2 ->
  validation_gates_instantiation (t1 ++ t2).
Proof.
  unfold validation_gates_instantiation. intros G1 G2 i d out.
  rewrite posts_app. intros H. apply lookup_app_Some in H.
  destruct H as [H | [Hle H]].
  - destruct (G1 _ _ _ H) as (j & dv & outv & Hj & Hv & ?).
    exists j, dv, outv. split; [exact Hj|]. split; [|assumption].
    apply lookup_app_l_Some. exact Hv.
  - destruct (G2 _ _ _ H) as (j & dv & outv & Hj & Hv & ?).
    exists (length (posts t1) + j)%nat, dv, outv. split; [lia|].
    split; [|assumption].
    rewrite lookup_app_r by lia.
    replace (length (posts t1) + j - length (posts t1))%nat with j by lia.
    exact Hv.
Qed.

Lemma gates_no_posts tr : posts tr = [] -> validation_gates_instantiation tr.
Proof. intros E i d out. rewrite E. intros H. discriminate H. Qed.

(** *** Fail-fast runs *)

Lemma ff_bind {A B} (m : M World A) (k : A -> M World B) :
  ff_run m -> (forall a, ff_run (k a)) -> ff_run (bind m k).
Proof.
  intros Hm Hk w. specialize (Hm w). unfold bind.
  destruct (m w) as [[t1 w1] [a|e]].
  2:{ cbn [fst snd] in *. intros i ep d out e' Hi He.
      destruct (Hm _ _ _ _ _ Hi He) as [[= ->] ?]. auto. }
  specialize (Hk a w1). destruct (k a w1) as [[t2 w2] r].
  cbn [fst snd] in *. intros i ep d out e Hi He.
  apply lookup_app_Some in Hi. destruct Hi as [Hi | [Hle Hi]].
  - destruct (Hm _ _ _ _ _ Hi He) as [? _]. discriminate.
  - destruct (Hk _ _ _ _ _ Hi He) as [-> Hlen]. split; [reflexivity|].
    rewrite length_app. lia.
Qed.

Lemma ff_lift {A} (r : result A) : ff_run (lift (World := World) r).
Proof. intros w i ep d out e Hi. discriminate Hi. Qed.

Lemma ff_raise {A} e : ff_run (raise (World := World) (A := A) e).
Proof. intros w i ep d out e' Hi. discriminate Hi. Qed.

Lemma ff_ret {A} (a : A) : ff_run (ret (World := World) a).
Proof. intros w i ep d out e' Hi. discriminate Hi. Qed.

Lemma ff_log lvl msg args : ff_run (log (World := World) lvl msg args).
Proof. intros w [|i] ep d out e Hi; discriminate Hi. Qed.

Lemma ff_client_call ep data (out : http_outcome) :
  fail_fast [Post ep data out] (client_result out).
Proof.
  intros [|i] ep' d out' e Hi He; [|discriminate Hi].
  injection Hi as <- <- <-. unfold service_error in He.
  destruct (client_result out); [discriminate|].
  injection He as <-. auto.
Qed.

Lemma ff_validate_template t vars : ff_run (validate_template backend t vars).
Proof. intros w. rewrite validate_template_run. apply ff_client_call. Qed.

Lemma ff_instantiate_template t vars sw dry :
  ff_run (instantiate_template backend t vars sw dry).
Proof. intros w. rewrite instantiate_template_run. apply ff_client_call. Qed.

Lemma ff_for_each {A} (body : A -> M World unit) l :
  (forall x, ff_run (body x)) -> ff_run (for_each body l).
Proof.
  intros Hb. induction l as [|x l IH]; cbn [for_each].
  - apply ff_ret.
  - apply ff_bind; [apply Hb|]. intros _. exact IH.
Qed.

Ltac ff_auto :=
  repeat first
    [ apply ff_lift | apply ff_log | apply ff_ret | apply ff_raise
    | apply ff_validate_template | apply ff_instantiate_template
    | apply ff_for_each; intros ?
    | apply ff_bind; [|intros ?]
    | match goal with |- ff_run (if ?c then _ else _) => destruct c end ].

Lemma ff_deploy_web_tier servers switch :
  ff_run (deploy_web_tier backend servers switch).
Proof. unfold deploy_web_tier, deploy_web_server. ff_auto. Qed.

Lemma ff_deploy_microservices services switch :
  ff_run (deploy_microservices backend services switch).
Proof. unfold deploy_microservices, deploy_microservice. ff_auto. Qed.

Lemma ff_deploy_databases databases switch :
  ff_run (deploy_databases backend databases switch).
Proof. unfold deploy_databases, deploy_database. ff_auto. Qed.

Lemma ff_deploy_zero_trust_resources resources switch :
  ff_run (deploy_zero_trust_resources backend resources switch).
Proof.
  unfold deploy_zero_trust_resources, deploy_zero_trust_resource. ff_auto.
Qed.

(** *** The requests of the tier deployers *)

Lemma deploy_microservice_posts service_ips switch service w tr w' r :
  deploy_microservice backend service_ips switch service w = (tr, w', r) ->
  single_request "microservice" switch
    (microservice_request_variables service_ips service) tr r.
Proof.
  unfold deploy_microservice, single_request, microservice_request_variables.
  intros H. run_inv.
  all: try (left; split; [reflexivity|eauto]; fail).
  all: right; do 2 eexists; (split; [|reflexivity]);
    match goal with
    | A : allowed_ips_of _ _ = Ok _ |- _ => rewrite A
    end; assumption.
Qed.

Lemma deploy_database_posts switch db w tr w' r :
  deploy_database backend switch db w = (tr, w', r) ->
  single_request "database-server" switch
    (database_request_variables db) tr r.
Proof.
  unfold deploy_database, single_request, database_request_variables.
  intros H. run_inv.
  all: try (left; split; [reflexivity|eauto]; fail).
  all: right; do 2 eexists; (split; [|reflexivity]);
    match goal with
    | A : database_port _ = Ok _ |- _ => rewrite A
    end; assumption.
Qed.

Lemma deploy_zero_trust_resource_posts switch resource w tr w' r :
  deploy_zero_trust_resource backend switch resource w = (tr, w', r) ->
  single_request "zero-trust" switch (zero_trust_variables resource) tr r.
Proof.
  unfold deploy_zero_trust_resource, single_request.
  intros H. run_inv.
  all: try (left; split; [reflexivity|eauto]; fail).
  all: right; do 2 eexists; (split; [|reflexivity]); assumption.
Qed.

Lemma loop_single_requests t switch vars_of
    (body : dict -> M World unit) l w tr w' r :
  (forall x w tr w' r,
      body x w = (tr, w', r) -> single_request t switch (vars_of x) tr r) ->
  loop_run body l w tr w' r ->
  Forall (fun p => p.1.1 = Instantiate /\ for_template t p) (posts tr) /\
  (r = Ok tt -> attempted vars_of Instantiate l (posts tr)).
Proof.
  intros Hb Hl. induction Hl as [w | x l w t0 w' e Hx
                                | x l w t1 w1 t2 w2 r Hx Hl IH].
  - split; [constructor|]. intros _. constructor.
  - split; [|discriminate].
    destruct (Hb _ _ _ _ _ Hx) as [[-> _] | (vars & out & _ & ->)].
    + constructor.
    + repeat constructor. apply template_id_instantiate_data.
  - destruct IH as [IH1 IH2]. rewrite posts_app.
    destruct (Hb _ _ _ _ _ Hx) as [[_ [e He]] | (vars & out & Hv & ->)];
      [discriminate|].
    split.
    + constructor; [|exact IH1]. split; [reflexivity|].
      apply template_id_instantiate_data.
    + intros Hr. constructor; [|exact (IH2 Hr)].
      split; [reflexivity|]. cbn [fst snd].
      rewrite variables_instantiate_data. exact Hv.
Qed.

Lemma build_service_ips_in services service_ips service :
  build_service_ips services [] = Ok service_ips ->
  microservice_variables_in services service =
  microservice_request_variables service_ips service.
Proof. unfold microservice_variables_in. intros ->. reflexivity. Qed.

Lemma deploy_microservices_posts services switch w tr w' r :
  deploy_microservices backend services switch w = (tr, w', r) ->
  Forall (fun p => p.1.1 = Instantiate /\ for_template "microservice" p)
         (posts tr) /\
  (r = Ok tt ->
   attempted (microservice_variables_in services) Instantiate services
             (posts tr)).
Proof.
  unfold deploy_microservices. intros H. run_inv.
  - split; [constructor|discriminate].
  - match goal with
    | L : for_each _ _ _ = _ |- _ => apply for_each_loop_run in L;
        eapply (loop_single_requests "microservice" switch
                  (microservice_variables_in services)) in L
    end.
    + rewrite !posts_app. cbn [posts omap app post_of]. assumption.
    + intros x w0 tr0 w0' r0 Hx.
      erewrite build_service_ips_in by eassumption.
      eapply deploy_microservice_posts. exact Hx.
Qed.

Lemma deploy_databases_posts databases switch w tr w' r :
  deploy_databases backend databases switch w = (tr, w', r) ->
  Forall (fun p => p.1.1 = Instantiate /\ for_template "database-server" p)
         (posts tr) /\
  (r = Ok tt ->
   attempted database_request_variables Instantiate databases (posts tr)).
Proof.
  unfold deploy_databases. intros H. run_inv.
  match goal with
  | L : for_each _ _ _ = _ |- _ => apply for_each_loop_run in L;
      eapply (loop_single_requests "database-server" switch
                database_request_variables) in L
  end.
  - rewrite !posts_app. cbn [posts omap app post_of]. assumption.
  - intros x w0 tr0 w0' r0 Hx. eapply deploy_database_posts. exact Hx.
Qed.

Lemma deploy_zero_trust_resources_posts resources switch w tr w' r :
  deploy_zero_trust_resources backend resources switch w = (tr, w', r) ->
  Forall (fun p => p.1.1 = Instantiate /\ for_template "zero-trust" p)
         (posts tr) /\
  (r = Ok tt ->
   attempted zero_trust_variables Instantiate resources (posts tr)).
Proof.
  unfold deploy_zero_trust_resources. intros H. run_inv.
  match goal with
  | L : for_each _ _ _ = _ |- _ => apply for_each_loop_run in L;
      eapply (loop_single_requests "zero-trust" switch
                zero_trust_variables) in L
  end.
  - rewrite !posts_app. cbn [posts omap app post_of]. assumption.
  - intros x w0 tr0 w0' r0 Hx.
    eapply deploy_zero_trust_resource_posts. exact Hx.
Qed.

Lemma deploy_web_server_step switch server w tr w' r :
  deploy_web_server backend switch server w = (tr, w', r) ->
  Forall (for_template "web-server") (posts tr) /\
  validation_gates_instantiation tr /\
  (r = Ok tt ->
   exists p,
     validations tr = [p] /\ p.1.1 = Validate /\
     web_server_validate_variables server = Ok (variables p.1.2) /\
     ((verdict p.2 = false /\ instantiations tr = []) \/
      (verdict p.2 = true /\
       exists q,
         instantiations tr = [q] /\ q.1.1 = Instantiate /\
         web_server_instantiate_variables server = Ok (variables q.1.2)))).
Proof.
  intros H. apply deploy_web_server_posts in H.
  destruct H as [[E [e ->]]
                | [(vars & out & Hv & E & Hr)
                  | (vars & vars' & outv & outi & Hv & Hi & E & Hok)]].
  - rewrite E. split; [constructor|].
    split; [now apply gates_no_posts|discriminate].
  - split; [rewrite E; repeat constructor|]. split.
    + intros [|i] d o; rewrite E; intros Hp; discriminate Hp.
    + intros Hr'. unfold validations, instantiations. rewrite E.
      eexists. split; [reflexivity|]. split; [reflexivity|].
      split; [exact Hv|]. left. split; [exact (Hr Hr')|reflexivity].
  - split.
    { rewrite E. repeat constructor. apply template_id_instantiate_data. }
    split.
    + intros [|[|i]] d o; rewrite E; intros Hp; try discriminate Hp.
      injection Hp as <- <-. exists 0%nat. do 2 eexists.
      split; [lia|]. split; [reflexivity|].
      rewrite web_server_variables_same in Hi.
      assert (vars' = vars) as -> by congruence.
      destruct (negb _); cbn [template_id variables validate_data]; auto.
    + intros _. unfold validations, instantiations. rewrite E.
      eexists. split; [reflexivity|]. split; [reflexivity|].
      split; [exact Hv|]. right. split; [exact Hok|].
      eexists. split; [reflexivity|]. split; [reflexivity|].
      cbn [fst snd]. rewrite variables_instantiate_data. exact Hi.
Qed.

Lemma web_loop_posts switch l w tr w' r :
  loop_run (deploy_web_server backend switch) l w tr w' r ->
  Forall (for_template "web-server") (posts tr) /\
  validation_gates_instantiation tr /\
  (r = Ok tt ->
   attempted web_server_validate_variables Validate l (validations tr) /\
   attempted web_server_instantiate_variables Instantiate
             (select (verdicts tr) l) (instantiations tr)).
Proof.
  intros Hl. induction Hl as [w | x l w t0 w' e Hx
                             | x l w t1 w1 t2 w2 r Hx Hl IH].
  - split; [constructor|]. split; [now apply gates_no_posts|].
    intros _. split; constructor.
  - apply deploy_web_server_step in Hx. destruct Hx as (F & G & _).
    split; [exact F|]. split; [exact G|discriminate].
  - apply deploy_web_server_step in Hx. destruct Hx as (F & G & Hok).
    destruct IH as (F2 & G2 & Hok2).
    split; [rewrite posts_app; now apply Forall_app|].
    split; [now apply gates_app|]. intros Hr.
    destruct (Hok eq_refl) as (p & Ev & Hp & Hvars & Hcase).
    destruct (Hok2 Hr) as [A1 A2].
    rewrite validations_app, instantiations_app, verdicts_app.
    unfold verdicts at 1. rewrite Ev. cbn [fmap list_fmap app].
    split; [constructor; [split; assumption|exact A1]|].
    destruct Hcase as [[-> ->] | [-> (q & -> & Hq & Hqv)]]; cbn [select app].
    + exact A2.
    + constructor; [split; assumption|exact A2].
Qed.

Lemma deploy_web_tier_posts servers switch w tr w' r :
  deploy_web_tier backend servers switch w = (tr, w', r) ->
  Forall (for_template "web-server") (posts tr) /\
  validation_gates_instantiation tr /\
  (r = Ok tt ->
   attempted web_server_validate_variables Validate servers
             (validations tr) /\
   attempted web_server_instantiate_variables Instantiate
             (select (verdicts tr) servers) (instantiations tr)).
Proof.
  unfold deploy_web_tier. intros H. run_inv.
  match goal with
  | L : for_each _ _ _ = _ |- _ =>
      apply for_each_loop_run in L; apply web_loop_posts in L;
      destruct L as (F & G & Hok)
  end.
  split; [exact F|]. split; [|exact Hok].
  apply gates_app; [now apply gates_no_posts|exact G].
Qed.

Lemma rule_count_ok reply :
  instantiation_result_ok reply = true -> exists n, rule_count reply = Ok n.
Proof.
  unfold instantiation_result_ok, rule_count. intros H.
  destruct (json_getitem reply "instance") as [inst|]; [|discriminate].
  cbn [mbind result_bind].
  destruct (json_getitem inst "rules") as [[| | | |l|]|]; try discriminate.
  cbn. eauto.
Qed.

Lemma deploy_web_server_returns switch server w tr w' r :
  well_formed_server server ->
  deploy_web_server backend switch server w = (tr, w', r) ->
  Forall (fun p => well_behaved p = true) (posts tr) ->
  r = Ok tt.
Proof.
  intros [[n Hn] [ip Hip]] H Hwb. unfold deploy_web_server in H.
  unfold web_server_validate_variables, web_server_instantiate_variables,
    getitem in H.
  rewrite Hn, Hip in H. cbn [mbind result_bind] in H. run_inv.
  all: try reflexivity.
  all: exfalso; rewrite ?posts_app in Hwb; cbn in Hwb.
  all: repeat match goal with
         | F : Forall _ (_ :: _) |- _ => apply Forall_cons in F; destruct F
         end.
  all: unfold well_behaved, validation_result_ok in *;
       cbn [fst snd mbind result_bind] in *.
  all: repeat case_match; simplify_eq; try congruence.
  match goal with
  | I : instantiation_result_ok _ = true |- _ =>
      destruct (rule_count_ok _ I); congruence
  end.
Qed.

Lemma web_loop_returns switch l w tr w' r :
  Forall well_formed_server l ->
  loop_run (deploy_web_server backend switch) l w tr w' r ->
  Forall (fun p => well_behaved p = true) (posts tr) ->
  r = Ok tt.
Proof.
  intros Hwf Hl. induction Hl as [w | x l w t0 w' e Hx
                                 | x l w t1 w1 t2 w2 r Hx Hl IH];
    intros Hwb.
  - reflexivity.
  - apply Forall_cons in Hwf. destruct Hwf as [Hx' _].
    exact (deploy_web_server_returns _ _ _ _ _ _ Hx' Hx Hwb).
  - apply Forall_cons in Hwf. destruct Hwf as [_ Hwf].
    rewrite posts_app in Hwb. apply Forall_app in Hwb.
    destruct Hwb as [_ Hwb]. exact (IH Hwf Hwb).
Qed.

Lemma select_all_true {A} bs (l : list A) :
  length bs = length l ->
  (forall j, bs !! j <> Some false) ->
  select bs l = l.
Proof.
  revert l. induction bs as [|b bs IH]; intros [|x l] Hlen Hall;
    try discriminate Hlen; [reflexivity|].
  cbn [select]. destruct b.
  - f_equal. apply IH; [now injection Hlen|].
    intros j. exact (Hall (S j)).
  - now destruct (Hall 0%nat).
Qed.

Lemma select_one_false {A} bs (l : list A) i :
  length bs = length l ->
  (forall j, bs !! j = Some false <-> j = i) ->
  select bs l = delete i l.
Proof.
  revert l i. induction bs as [|b bs IH]; intros [|x l] i Hlen Hone;
    try discriminate Hlen.
  - assert (H : ([] : list bool) !! i = Some false) by now apply Hone.
    discriminate H.
  - injection Hlen as Hlen. cbn [select]. destruct b.
    + destruct i as [|i].
      * assert (H : (true :: bs) !! 0%nat = Some false) by now apply Hone.
        discriminate H.
      * cbn [delete list_delete]. f_equal. apply IH; [exact Hlen|].
        intros j. specialize (Hone (S j)). cbn in Hone. rewrite Hone. lia.
    + assert (i = 0%nat) as -> by (symmetry; now apply Hone).
      cbn [delete list_delete]. apply select_all_true; [exact Hlen|].
      intros j Hj. assert (S j = 0%nat) by now apply Hone. discriminate.
Qed.

(** ** The tier deployers and the orchestrator *)

(** C3: in a web tier of N well-formed servers, when the backend answers
    every request with a well-formed result (no service error) and
    rejects exactly the validation of entity [i], the deployer returns
    normally, validates every server in order (so the servers after [i]
    are still attempted), instantiates exactly the servers other than
    [i], in order, and so performs N-1 instantiations. *)
Theorem one_rejection_skips_one_instantiation servers switch w i :
  let run := deploy_web_tier backend servers switch w in
  Forall well_formed_server servers ->
  Forall (fun p => well_behaved p = true) (posts run.1.1) ->
  (forall j, verdicts run.1.1 !! j = Some false <-> j = i) ->
  run.2 = Ok tt /\
  attempted web_server_validate_variables Validate servers
            (validations run.1.1) /\
  attempted web_server_instantiate_variables Instantiate
            (delete i servers) (instantiations run.1.1) /\
  length (instantiations run.1.1) = (length servers - 1)%nat.
Proof.
  intros run. subst run.
  destruct (deploy_web_tier backend servers switch w) as [[tr w'] r] eqn:H.
  cbn [fst snd]. intros Hwf Hwb Hone.
  assert (Hr : r = Ok tt).
  { unfold deploy_web_tier in H. run_inv.
    match goal with
    | L : for_each _ _ _ = _ |- _ => apply for_each_loop_run in L;
        eapply web_loop_returns in L; [exact L|exact Hwf|]
    end.
    rewrite posts_app in Hwb. apply Forall_app in Hwb. apply Hwb. }
  apply deploy_web_tier_posts in H. destruct H as (_ & _ & Hok).
  destruct (Hok Hr) as [Hv Hi].
  assert (Hlen : length (verdicts tr) = length servers).
  { unfold verdicts. rewrite length_fmap. symmetry.
    exact (Forall2_length _ _ _ Hv). }
  rewrite (select_one_false _ _ i Hlen Hone) in Hi.
  split; [exact Hr|]. split; [exact Hv|]. split; [exact Hi|].
  rewrite <- (Forall2_length _ _ _ Hi). apply length_delete.
  apply lookup_lt_is_Some. rewrite <- Hlen.
  apply lookup_lt_is_Some. exists false. now apply Hone.
Qed.

(** C2: when a client call raises a service error (no response, a 4xx
    or 5xx status, or an undecodable body) for some entity of some tier,
    the run of [main] raises that very error, and nothing follows the
    failing request in the trace but the top-level failure record: no
    later entity of the tier and no entity of a later tier is attempted,
    and no deployer catches the error. *)
Theorem service_error_aborts_run infra w i ep d out e :
  (main_body backend infra w).1.1 !! i = Some (Post ep d out) ->
  service_error out = Some e ->
  (main_body backend infra w).2 = Raise e /\
  drop (S i) (main_body backend infra w).1.1 =
    [Log ERROR "Deployment failed: {}" [AExn e]].
Proof.
  unfold main_body, try_except.
  match goal with
  | |- context [match ?b w with _ => _ end] =>
      assert (Hff : ff_run b);
      [ ff_auto;
        auto using ff_deploy_web_tier, ff_deploy_microservices,
          ff_deploy_databases, ff_deploy_zero_trust_resources
      | specialize (Hff w); destruct (b w) as [[t1 w1] [[]|e0]] ]
  end; cbn [fst snd] in *.
  - intros Hi He. destruct (Hff _ _ _ _ _ Hi He) as [? _]. discriminate.
  - unfold bind, log, raise. cbn [fst snd app]. intros Hi He.
    apply lookup_app_Some in Hi. destruct Hi as [Hi | [Hle Hi]].
    + destruct (Hff _ _ _ _ _ Hi He) as [[= ->] Hlen].
      split; [reflexivity|]. rewrite drop_app_length'; [reflexivity|].
      symmetry. exact Hlen.
    + destruct (i - length t1)%nat as [|n]; cbn in Hi; discriminate Hi.
Qed.

(** C1 (as the code has it): in the web tier every instantiation request
    comes after a validation request for the same template and variables
    that was answered with a truthy [valid]; the deployers of the other
    three tiers send no validation request at all and instantiate
    directly. *)
Theorem validation_gates_web_tier_only :
  (forall servers switch w,
      validation_gates_instantiation
        (deploy_web_tier backend servers switch w).1.1) /\
  (forall services switch w,
      validations (deploy_microservices backend services switch w).1.1
      = []) /\
  (forall databases switch w,
      validations (deploy_databases backend databases switch w).1.1 = []) /\
  (forall resources switch w,
      validations
        (deploy_zero_trust_resources backend resources switch w).1.1 = []).
Proof.
  assert (Hnone : forall t ps,
             Forall (fun p : endpoint * request * http_outcome =>
                       p.1.1 = Instantiate /\ for_template t p) ps ->
             List.filter is_validate ps = []).
  { intros t ps. induction 1 as [|p ps [Hp _] _ IH]; [reflexivity|].
    cbn [List.filter]. unfold is_validate at 1. rewrite Hp. exact IH. }
  split; [|split; [|split]].
  - intros servers switch w.
    destruct (deploy_web_tier backend servers switch w) as [[tr w'] r] eqn:H.
    apply deploy_web_tier_posts in H. apply H.
  - intros services switch w.
    destruct (deploy_microservices backend services switch w)
      as [[tr w'] r] eqn:H.
    apply deploy_microservices_posts in H. eapply Hnone, H.
  - intros databases switch w.
    destruct (deploy_databases backend databases switch w)
      as [[tr w'] r] eqn:H.
    apply deploy_databases_posts in H. eapply Hnone, H.
  - intros resources switch w.
    destruct (deploy_zero_trust_resources backend resources switch w)
      as [[tr w'] r] eqn:H.
    apply deploy_zero_trust_resources_posts in H. eapply Hnone, H.
Qed.

(** C6: the requests of a run of [main] fall into four consecutive
    segments, for the web, application, data and secure-resources tiers
    in this order.  As soon as a later tier has sent a request, every
    entity of the tier before it has been attempted, in the order of the
    tier; a run that returns normally has attempted every entity of the
    four tiers. *)
Theorem tiers_in_order infra w :
  let run := main_body backend infra w in
  let servers := tier_entities (web_tier infra) in
  let services := tier_entities (app_tier infra) in
  let databases := tier_entities (data_tier infra) in
  let resources := tier_entities (secure_resources infra) in
  exists tw ta td ts,
    posts run.1.1 = tw ++ ta ++ td ++ ts /\
    Forall (for_template "web-server") tw /\
    Forall (for_template "microservice") ta /\
    Forall (for_template "database-server") td /\
    Forall (for_template "zero-trust") ts /\
    (ta ++ td ++ ts <> [] ->
     attempted web_server_validate_variables Validate servers
               (List.filter is_validate tw)) /\
    (td ++ ts <> [] ->
     attempted (microservice_variables_in services) Instantiate services
               ta) /\
    (ts <> [] ->
     attempted database_request_variables Instantiate databases td) /\
    (run.2 = Ok tt ->
     attempted web_server_validate_variables Validate servers
               (List.filter is_validate tw) /\
     attempted (microservice_variables_in services) Instantiate services
               ta /\
     attempted database_request_variables Instantiate databases td /\
     attempted zero_trust_variables Instantiate resources ts).
Proof.
  intros run servers services databases resources.
  subst run servers services databases resources.
  destruct (main_body backend infra w) as [[tr w'] r] eqn:H.
  cbn [fst snd]. unfold main_body in H. run_inv.
  all: repeat match goal with
         | T : deploy_web_tier _ _ _ _ = _ |- _ =>
             apply deploy_web_tier_posts in T;
             destruct T as (? & _ & ?)
         | T : deploy_microservices _ _ _ _ = _ |- _ =>
             apply deploy_microservices_posts in T; destruct T as (? & ?)
         | T : deploy_databases _ _ _ _ = _ |- _ =>
             apply deploy_databases_posts in T; destruct T as (? & ?)
         | T : deploy_zero_trust_resources _ _ _ _ = _ |- _ =>
             apply deploy_zero_trust_resources_posts in T;
             destruct T as (? & ?)
         end.
  all: repeat match goal with u : unit |- _ => destruct u end.
  all: repeat match goal with
         | O : Ok () = Ok () -> _ |- _ => specialize (O eq_refl)
         | O : attempted _ _ _ (validations _) /\ _ |- _ =>
             destruct O as [O _]; unfold validations in O
         end.
  all: let segment t :=
         match goal with
         | F : Forall (for_template t) (posts ?x) |- _ => constr:(posts x)
         | F : Forall (fun p => _ /\ for_template t p) (posts ?x) |- _ =>
             constr:(posts x)
         | _ => constr:(@nil (endpoint * request * http_outcome))
         end in
       let tw := segment "web-server" in
       let ta := segment "microservice" in
       let td := segment "database-server" in
       let ts := segment "zero-trust" in
       exists tw, ta, td, ts.
  all: split;
    [ rewrite !posts_app, ?posts_log, ?posts_nil, <- ?app_assoc;
      cbn [app]; rewrite ?app_nil_r; reflexivity |].
  all: repeat split.
  all: try assumption.
  all: try (constructor; fail).
  all: try (eapply Forall_impl; [eassumption | intros ? [_ ?]; assumption]).
  all: try (intros _; assumption).
  all: try (intros Hne; exfalso; apply Hne; reflexivity).
  all: try (intros Hok; discriminate Hok).
  all: match goal with R : Raise _ = Ok _ |- _ => discriminate R end.
Qed.

(** ** Further properties of the deployers *)

Lemma for_each_app {A} (body : A -> M World unit) l1 l2 w :
  for_each body (l1 ++ l2) w =
  bind (for_each body l1) (fun _ => for_each body l2) w.
Proof.
  revert w. induction l1 as [|x l1 IH]; intros w;
    cbn [app for_each]; unfold bind in *; unfold ret.
  - destruct (for_each body l2 w) as [[t2 w2] r]. reflexivity.
  - destruct (body x w) as [[t1 w1] [[]|e]]; [|reflexivity].
    rewrite IH.
    destruct (for_each body l1 w1) as [[t2 w2] [[]|e]]; [|reflexivity].
    destruct (for_each body l2 w2) as [[t3 w3] r].
    now rewrite app_assoc.
Qed.

Lemma tier_append lvl msg args (body : dict -> M World unit) l1 l2 w :
  let deploy l := bind (log lvl msg args) (fun _ => for_each body l) in
  (deploy l1 w).1.1 `prefix_of` (deploy (l1 ++ l2) w).1.1 /\
  (forall e, (deploy l1 w).2 = Raise e -> deploy (l1 ++ l2) w = deploy l1 w).
Proof.
  intros deploy. subst deploy. cbv beta. unfold bind at 1 2 3 4 5, log.
  rewrite for_each_app. unfold bind.
  destruct (for_each body l1 w) as [[t1 w1] [[]|e]]; cbn [fst snd].
  - destruct (for_each body l2 w1) as [[t2 w2] r]. cbn [fst snd].
    split; [|discriminate].
    exists t2. now rewrite app_assoc.
  - split; [reflexivity|]. intros _ _. reflexivity.
Qed.

(** X5: the web, data and secure-resources deployers work through their
    list front to back: the trace of deploying [l1] is a prefix of the
    trace of deploying [l1 ++ l2], and when deploying [l1] raises,
    deploying [l1 ++ l2] is the very same run. *)
Theorem later_entities_do_not_matter l1 l2 switch w :
  ((deploy_web_tier backend l1 switch w).1.1
     `prefix_of` (deploy_web_tier backend (l1 ++ l2) switch w).1.1 /\
   (forall e, (deploy_web_tier backend l1 switch w).2 = Raise e ->
              deploy_web_tier backend (l1 ++ l2) switch w
              = deploy_web_tier backend l1 switch w)) /\
  ((deploy_databases backend l1 switch w).1.1
     `prefix_of` (deploy_databases backend (l1 ++ l2) switch w).1.1 /\
   (forall e, (deploy_databases backend l1 switch w).2 = Raise e ->
              deploy_databases backend (l1 ++ l2) switch w
              = deploy_databases backend l1 switch w)) /\
  ((deploy_zero_trust_resources backend l1 switch w).1.1
     `prefix_of`
     (deploy_zero_trust_resources backend (l1 ++ l2) switch w).1.1 /\
   (forall e,
       (deploy_zero_trust_resources backend l1 switch w).2 = Raise e ->
       deploy_zero_trust_resources backend (l1 ++ l2) switch w
       = deploy_zero_trust_resources backend l1 switch w)).
Proof.
  unfold deploy_web_tier, deploy_databases, deploy_zero_trust_resources.
  split; [|split]; apply tier_append.
Qed.

(** With no entity in any tier, [main] sends no request, leaves the
    backend as it is and completes: the trace is the start record, the
    four tier records and the completion record. *)
Lemma empty_infrastructure_completes web app data secure w :
  main_body backend (empty_infrastructure web app data secure) w =
  ([ Log INFO "Starting infrastructure deployment..." [];
     Log INFO "Deploying web tier on switch {}" [AStr web];
     Log INFO "Deploying microservices on switch {}" [AStr app];
     Log INFO "Deploying databases on switch {}" [AStr data];
     Log INFO "Deploying zero-trust policies on switch {}" [AStr secure];
     Log INFO "Infrastructure deployment completed successfully!" [] ],
   w, Ok tt).
Proof. reflexivity. Qed.

(** X3: every request a deployer sends for an entity names the template
    of the entity's kind.  A validation request has neither [dry_run] nor
    [target_switch]; an instantiation request is never a dry run and
    targets the switch of the tier, unless that switch is the empty
    string, in which case no target is sent. *)
Theorem request_fields k service_ips switch entity w p :
  In p (posts (deploy_entity backend k service_ips switch entity w).1.1) ->
  template_id p.1.2 = template_of k /\
  match p.1.1 with
  | Validate => dry_run p.1.2 = None /\ target_switch p.1.2 = None
  | Instantiate =>
      dry_run p.1.2 = Some false /\
      target_switch p.1.2 =
        if String.eqb switch EmptyString then None else Some switch
  end.
Proof.
  destruct (deploy_entity backend k service_ips switch entity w)
    as [[tr w'] r] eqn:H.
  cbn [fst snd]. intros Hin.
  assert (Hinst : forall t vars,
             template_id (instantiate_data t vars (Some switch) false) = t /\
             dry_run (instantiate_data t vars (Some switch) false)
             = Some false /\
             target_switch (instantiate_data t vars (Some switch) false)
             = if String.eqb switch EmptyString then None else Some switch).
  { intros t vars. unfold instantiate_data.
    destruct (String.eqb switch EmptyString); cbn; auto. }
  assert (Hsingle : forall t vars_of,
             single_request t switch vars_of tr r ->
             template_id p.1.2 = t /\
             match p.1.1 with
             | Validate => dry_run p.1.2 = None /\ target_switch p.1.2 = None
             | Instantiate =>
                 dry_run p.1.2 = Some false /\
                 target_switch p.1.2 =
                   if String.eqb switch EmptyString then None
                   else Some switch
             end).
  { intros t vars_of [[E _] | (vars & out & _ & E)];
      rewrite E in Hin; [destruct Hin|].
    destruct Hin as [<- | []]. cbn [fst snd]. apply Hinst. }
  destruct k; cbn [deploy_entity template_of] in *.
  - apply deploy_web_server_posts in H.
    destruct H as [[E _]
                  | [(vars & out & _ & E & _)
                    | (vars & vars' & outv & outi & _ & _ & E & _)]];
      rewrite E in Hin.
    + destruct Hin.
    + destruct Hin as [<- | []]. cbn. auto.
    + destruct Hin as [<- | [<- | []]]; cbn [fst snd].
      * cbn. auto.
      * apply Hinst.
  - eapply Hsingle, deploy_microservice_posts, H.
  - eapply Hsingle, deploy_database_posts, H.
  - eapply Hsingle, deploy_zero_trust_resource_posts, H.
Qed.

(** X11: an entity whose variable set cannot be built (a missing
    attribute, a value of the wrong type) is never sent to the backend:
    the deployer sends no request for it and raises. *)
Theorem unbuildable_entity_not_sent k service_ips switch entity w e :
  entity_variables k service_ips entity = Raise e ->
  posts (deploy_entity backend k service_ips switch entity w).1.1 = [] /\
  exists e', (deploy_entity backend k service_ips switch entity w).2
             = Raise e'.
Proof.
  destruct (deploy_entity backend k service_ips switch entity w)
    as [[tr w'] r] eqn:H.
  cbn [fst snd]. intros Hraise.
  assert (Hsingle : forall t,
             single_request t switch
               (entity_variables k service_ips entity) tr r ->
             posts tr = [] /\ exists e', r = Raise e').
  { intros t [[E He] | (vars & out & Hv & _)]; [auto|]. congruence. }
  destruct k; cbn [deploy_entity entity_variables] in *.
  - apply deploy_web_server_posts in H.
    destruct H as [[E He]
                  | [(vars & out & Hv & _)
                    | (vars & vars' & outv & outi & Hv & _)]];
      [auto|congruence|congruence].
  - eapply Hsingle, deploy_microservice_posts, H.
  - eapply Hsingle, deploy_database_posts, H.
  - eapply Hsingle, deploy_zero_trust_resource_posts, H.
Qed.

(** X12: a server whose validation is answered with a falsy [valid] is
    reported in an ERROR record that carries the server name and the
    [errors] of the answer, no instantiation request is sent for it and
    the deployer goes on.  When the answer has no [errors] member, reading
    it raises [KeyError] instead, and the deployer stops there. *)
Theorem rejected_server_reported switch server w name ip vars w1 out body
    valid :
  server !! "name" = Some name ->
  server !! "ip" = Some ip ->
  web_server_validate_variables server = Ok vars ->
  backend w Validate (validate_data "web-server" vars) = (w1, out) ->
  client_result out = Ok body ->
  json_getitem body "valid" = Ok valid ->
  json_truthy valid = false ->
  deploy_web_server backend switch server w =
  ([ Log INFO "Configuring web server {} ({})" [AVal name; AVal ip];
     Post Validate (validate_data "web-server" vars) out ] ++
   match json_getitem body "errors" with
   | Ok errors =>
       [Log ERROR "Validation failed for {}: {}" [AVal name; AJson errors]]
   | Raise _ => []
   end,
   w1,
   match json_getitem body "errors" with
   | Ok _ => Ok tt
   | Raise e => Raise e
   end).
Proof.
  intros Hname Hip Hvars Hback Hres Hvalid Hfalsy.
  unfold deploy_web_server, bind, lift, log, getitem.
  rewrite Hname, Hip, Hvars, validate_template_run, Hback.
  cbn [fst snd]. rewrite Hres, Hvalid, Hfalsy. cbn [negb].
  destruct (json_getitem body "errors"); reflexivity.
Qed.

(** X13: a server whose validation is accepted costs the backend exactly
    two requests, the validation and then the instantiation on the state
    the validation left; the number of rules of the answer is reported
    with the server name in the last record. *)
Theorem accepted_server_deployed switch server w name ip vars w1 outv body
    valid w2 outi reply n :
  server !! "name" = Some name ->
  server !! "ip" = Some ip ->
  web_server_validate_variables server = Ok vars ->
  backend w Validate (validate_data "web-server" vars) = (w1, outv) ->
  client_result outv = Ok body ->
  json_getitem body "valid" = Ok valid ->
  json_truthy valid = true ->
  backend w1 Instantiate
          (instantiate_data "web-server" vars (Some switch) false)
  = (w2, outi) ->
  client_result outi = Ok reply ->
  rule_count reply = Ok n ->
  deploy_web_server backend switch server w =
  ([ Log INFO "Configuring web server {} ({})" [AVal name; AVal ip];
     Post Validate (validate_data "web-server" vars) outv;
     Post Instantiate
          (instantiate_data "web-server" vars (Some switch) false) outi;
     Log INFO "Created {} rules for {}" [ALen n; AVal name] ],
   w2, Ok tt).
Proof.
  intros Hname Hip Hvars Hback Hres Hvalid Htruthy Hback2 Hres2 Hcount.
  unfold deploy_web_server, bind, lift, log, getitem.
  rewrite Hname, Hip, Hvars, validate_template_run, Hback.
  cbn [fst snd]. rewrite Hres, Hvalid, Htruthy. cbn [negb].
  rewrite <- web_server_variables_same in Hvars. rewrite Hvars.
  rewrite instantiate_template_run, Hback2. cbn [fst snd].
  rewrite Hres2, Hcount. reflexivity.
Qed.

(** X14: [main] reports how it ends, whatever happens: its first record
    is the start record; when it returns its last record is the
    completion record; when it raises, for a service error as for a
    malformed entity, its last record is the failure record with the very
    exception it raises. *)
Theorem main_reports_outcome infra w :
  head (main_body backend infra w).1.1
  = Some (Log INFO "Starting infrastructure deployment..." []) /\
  last (main_body backend infra w).1.1
  = Some match (main_body backend infra w).2 with
         | Ok _ =>
             Log INFO "Infrastructure deployment completed successfully!" []
         | Raise e => Log ERROR "Deployment failed: {}" [AExn e]
         end.
Proof.
  destruct (main_body backend infra w) as [[tr w'] r] eqn:H.
  cbn [fst snd]. unfold main_body in H. run_inv.
  all: split; [reflexivity|].
  all: rewrite ?app_nil_r, ?app_assoc; apply last_snoc.
Qed.

Lemma build_service_ips_malformed services acc :
  Exists (fun s : dict => s !! "name" = None \/ s !! "ip" = None) services ->
  exists e, build_service_ips services acc = Raise e.
Proof.
  intros Hex. revert acc. induction Hex as [s l Hs | s l _ IH]; intros acc;
    cbn [build_service_ips]; unfold getitem.
  - destruct Hs as [-> | Hip]; [eauto|].
    destruct (s !! "name"); [|eauto]. rewrite Hip. eauto.
  - destruct (s !! "name") as [name|]; [|eauto].
    destruct (s !! "ip") as [ip|]; [|eauto].
    cbn [mbind result_bind]. destruct (hashable name); [apply IH|eauto].
Qed.

(** X6: the microservice deployer reads the name and the IP of every
    service of the tier before it deploys the first one: one service
    without [name] or without [ip], wherever it stands in the list, and
    the deployer raises without sending any request and without touching
    the backend. *)
Theorem malformed_service_blocks_tier services switch w :
  Exists (fun s : dict => s !! "name" = None \/ s !! "ip" = None) services ->
  exists e,
    deploy_microservices backend services switch w =
    ([Log INFO "Deploying microservices on switch {}" [AStr switch]],
     w, Raise e).
Proof.
  intros Hex.
  destruct (build_service_ips_malformed services [] Hex) as [e He].
  exists e. unfold deploy_microservices, bind, lift, log. rewrite He.
  reflexivity.
Qed.

(** *** Deployable entities are deployed *)

Lemma expect_strs_is_str l :
  Forall is_str l -> exists ss, expect_strs l = Ok ss.
Proof.
  induction 1 as [|v l [s ->] _ [ss IH]]; cbn [expect_strs]; [eauto|].
  rewrite IH. cbn. eauto.
Qed.

Lemma pydict_store_is_str d k v :
  Forall (fun kv : pyval * pyval => is_str kv.2) d -> is_str v ->
  Forall (fun kv : pyval * pyval => is_str kv.2) (pydict_store d k v).
Proof.
  intros Hd Hv. induction Hd as [|[k0 v0] d H0 Hd IH]; cbn [pydict_store].
  - repeat constructor. exact Hv.
  - destruct (key_eqb k0 k); constructor; assumption.
Qed.

Lemma pydict_lookup_is_str d k v :
  Forall (fun kv : pyval * pyval => is_str kv.2) d ->
  pydict_lookup d k = Some v -> is_str v.
Proof.
  induction 1 as [|[k0 v0] d H0 _ IH]; cbn [pydict_lookup]; [discriminate|].
  destruct (key_eqb k0 k); [|exact IH]. intros [= <-]. exact H0.
Qed.

Lemma build_service_ips_deployable services acc :
  Forall deployable_service services ->
  Forall (fun kv : pyval * pyval => is_str kv.2) acc ->
  exists service_ips,
    build_service_ips services acc = Ok service_ips /\
    Forall (fun kv : pyval * pyval => is_str kv.2) service_ips.
Proof.
  intros Hs. revert acc.
  induction Hs as [|s l ([n Hn] & [ip Hip] & _) _ IH]; intros acc Hacc.
  - exists acc. split; [reflexivity|exact Hacc].
  - cbn [build_service_ips]. unfold getitem. rewrite Hn, Hip.
    cbn [mbind result_bind hashable]. apply IH.
    apply pydict_store_is_str; [exact Hacc|]. now exists ip.
Qed.

Lemma resolve_dependencies_is_str service_ips deps acc :
  Forall (fun kv : pyval * pyval => is_str kv.2) service_ips ->
  Forall is_str acc ->
  exists ips,
    resolve_dependencies service_ips (PStr <$> deps) acc = Ok ips /\
    Forall is_str ips.
Proof.
  intros Hd. revert acc. induction deps as [|dep deps IH]; intros acc Hacc.
  - exists acc. split; [reflexivity|exact Hacc].
  - rewrite fmap_cons. cbn [resolve_dependencies].
    unfold pydict_contains, pydict_getitem. cbn [hashable mbind result_bind].
    destruct (pydict_lookup service_ips (PStr dep)) as [ip|] eqn:E.
    + rewrite bool_decide_eq_true_2 by eauto. cbn [mbind result_bind].
      apply IH. apply Forall_app. split; [exact Hacc|].
      repeat constructor. eapply pydict_lookup_is_str; eassumption.
    + rewrite bool_decide_eq_false_2 by (intros [? ?]; discriminate).
      apply IH. exact Hacc.
Qed.

Lemma microservice_request_variables_returns service_ips service :
  Forall (fun kv : pyval * pyval => is_str kv.2) service_ips ->
  deployable_service service ->
  exists ips,
    allowed_ips_of service_ips service = Ok ips /\
    exists vars, microservice_variables service ips = Ok vars.
Proof.
  intros Hd ([n Hn] & [ip Hip] & Hdeps).
  assert (Hips : exists ips,
             allowed_ips_of service_ips service = Ok ips /\
             Forall is_str ips).
  { unfold allowed_ips_of, get.
    destruct Hdeps as [-> | [deps ->]]; cbn [py_iter mbind result_bind strs].
    - exists []. split; [reflexivity|constructor].
    - apply resolve_dependencies_is_str; [exact Hd|constructor]. }
  destruct Hips as (ips & Hips & Hstr). exists ips. split; [exact Hips|].
  unfold microservice_variables, getitem, str_join. rewrite Hn, Hip.
  cbn [mbind result_bind py_iter].
  destruct (expect_strs_is_str _ Hstr) as [ss ->].
  cbn [mbind result_bind]. eauto.
Qed.

Lemma database_request_variables_returns db :
  deployable_database db ->
  exists port,
    database_port db = Ok port /\
    forall port', exists vars, database_variables db port' = Ok vars.
Proof.
  intros (_ & [t Ht] & [ip Hip] & [sub Hsub] & Hrep).
  unfold database_port, getitem, pydict_get. rewrite Ht.
  cbn [mbind result_bind hashable].
  assert (Hjoin : exists j,
             str_join "," (get db "replicas" (PList [])) = Ok j).
  { unfold get. destruct Hrep as [-> | [l ->]].
    - cbn. eauto.
    - rewrite str_join_strs. eauto. }
  destruct Hjoin as [j Hj].
  destruct (pydict_lookup default_ports (PStr t)); cbn [mbind result_bind];
    (eexists; split; [reflexivity|]); intros port';
    unfold database_variables, getitem; rewrite Hip, Hsub;
    cbn [mbind result_bind]; rewrite Hj; cbn [mbind result_bind]; eauto.
Qed.

Lemma zero_trust_variables_returns resource :
  deployable_resource resource ->
  exists vars, zero_trust_variables resource = Ok vars.
Proof.
  intros (_ & [ip Hip] & [port Hport] & [l Hl]).
  unfold zero_trust_variables, getitem. rewrite Hip, Hport, Hl.
  cbn [mbind result_bind]. rewrite str_join_strs.
  cbn [mbind result_bind]. eauto.
Qed.

(** A request answered badly cannot be in a well-behaved trace. *)
Ltac wb_absurd Hwb :=
  rewrite ?posts_app in Hwb; cbn in Hwb;
  repeat match goal with
    | F : Forall _ (_ :: _) |- _ => apply Forall_cons in F; destruct F
    end;
  unfold well_behaved, validation_result_ok in *;
  cbn [fst snd mbind result_bind] in *;
  repeat case_match; simplify_eq; try congruence;
  try match goal with
    | I : instantiation_result_ok _ = true |- _ =>
        destruct (rule_count_ok _ I); congruence
    end.

Lemma deploy_microservice_returns service_ips switch service w tr w' r :
  Forall (fun kv : pyval * pyval => is_str kv.2) service_ips ->
  deployable_service service ->
  deploy_microservice backend service_ips switch service w = (tr, w', r) ->
  Forall (fun p => well_behaved p = true) (posts tr) ->
  r = Ok tt.
Proof.
  intros Hd Hs H Hwb.
  destruct (microservice_request_variables_returns _ _ Hd Hs)
    as (ips & Hips & vars & Hvars).
  destruct Hs as ([n Hn] & _).
  unfold deploy_microservice in H. rewrite Hips in H.
  unfold getitem in H. rewrite Hn in H. run_inv.
  all: try reflexivity.
  all: exfalso; try congruence.
  all: wb_absurd Hwb.
Qed.

Lemma deploy_database_returns switch db w tr w' r :
  deployable_database db ->
  deploy_database backend switch db w = (tr, w', r) ->
  Forall (fun p => well_behaved p = true) (posts tr) ->
  r = Ok tt.
Proof.
  intros Hdb H Hwb.
  destruct (database_request_variables_returns _ Hdb)
    as (port & Hport & Hvars).
  destruct Hdb as ([n Hn] & [t Ht] & _).
  unfold deploy_database in H. rewrite Hport in H.
  unfold getitem in H. rewrite Hn, Ht in H. run_inv.
  all: try reflexivity.
  all: exfalso; try congruence.
  all: try match goal with
         | V : database_variables _ ?p = Raise _ |- _ =>
             destruct (Hvars p); congruence
         end.
  all: wb_absurd Hwb.
Qed.

Lemma deploy_zero_trust_resource_returns switch resource w tr w' r :
  deployable_resource resource ->
  deploy_zero_trust_resource backend switch resource w = (tr, w', r) ->
  Forall (fun p => well_behaved p = true) (posts tr) ->
  r = Ok tt.
Proof.
  intros Hres H Hwb.
  destruct (zero_trust_variables_returns _ Hres) as (vars & Hvars).
  destruct Hres as ([n Hn] & _).
  unfold deploy_zero_trust_resource in H. rewrite Hvars in H.
  unfold getitem in H. rewrite Hn in H. run_inv.
  all: try reflexivity.
  all: exfalso; try congruence.
  all: wb_absurd Hwb.
Qed.

Lemma loop_returns (good : dict -> Prop) (body : dict -> M World unit)
    l w tr w' r :
  (forall x w tr w' r,
      good x -> body x w = (tr, w', r) ->
      Forall (fun p => well_behaved p = true) (posts tr) -> r = Ok tt) ->
  Forall good l ->
  loop_run body l w tr w' r ->
  Forall (fun p => well_behaved p = true) (posts tr) ->
  r = Ok tt.
Proof.
  intros Hb Hgood Hl. induction Hl as [w | x l w t0 w' e Hx
                                      | x l w t1 w1 t2 w2 r Hx Hl IH];
    intros Hwb.
  - reflexivity.
  - apply Forall_cons in Hgood. destruct Hgood as [Hx' _].
    exact (Hb _ _ _ _ _ Hx' Hx Hwb).
  - apply Forall_cons in Hgood. destruct Hgood as [_ Hgood].
    rewrite posts_app in Hwb. apply Forall_app in Hwb.
    destruct Hwb as [_ Hwb]. exact (IH Hgood Hwb).
Qed.

Lemma deploy_web_tier_returns servers switch w tr w' r :
  Forall well_formed_server servers ->
  deploy_web_tier backend servers switch w = (tr, w', r) ->
  Forall (fun p => well_behaved p = true) (posts tr) ->
  r = Ok tt.
Proof.
  intros Hwf H Hwb. unfold deploy_web_tier in H. run_inv.
  match goal with
  | L : for_each _ _ _ = _ |- _ => apply for_each_loop_run in L;
      eapply web_loop_returns in L; [exact L|exact Hwf|]
  end.
  rewrite posts_app in Hwb. apply Forall_app in Hwb. apply Hwb.
Qed.

Lemma deploy_microservices_returns services switch w tr w' r :
  Forall deployable_service services ->
  deploy_microservices backend services switch w = (tr, w', r) ->
  Forall (fun p => well_behaved p = true) (posts tr) ->
  r = Ok tt.
Proof.
  intros Hs H Hwb.
  destruct (build_service_ips_deployable services [] Hs)
    as (d & Hd & Hstr); [constructor|].
  unfold deploy_microservices in H. rewrite Hd in H. run_inv. simplify_eq.
  match goal with
  | L : for_each _ _ _ = _ |- _ => apply for_each_loop_run in L;
      eapply (loop_returns deployable_service) in L; [exact L| |exact Hs|]
  end.
  - intros x w0 tr0 w0' r0 Hx. now apply deploy_microservice_returns.
  - rewrite !posts_app in Hwb. rewrite !Forall_app in Hwb. apply Hwb.
Qed.

Lemma deploy_databases_returns databases switch w tr w' r :
  Forall deployable_database databases ->
  deploy_databases backend databases switch w = (tr, w', r) ->
  Forall (fun p => well_behaved p = true) (posts tr) ->
  r = Ok tt.
Proof.
  intros Hs H Hwb. unfold deploy_databases in H. run_inv.
  match goal with
  | L : for_each _ _ _ = _ |- _ => apply for_each_loop_run in L;
      eapply (loop_returns deployable_database) in L; [exact L| |exact Hs|]
  end.
  - intros x w0 tr0 w0' r0 Hx. now apply deploy_database_returns.
  - rewrite posts_app in Hwb. apply Forall_app in Hwb. apply Hwb.
Qed.

Lemma deploy_zero_trust_resources_returns resources switch w tr w' r :
  Forall deployable_resource resources ->
  deploy_zero_trust_resources backend resources switch w = (tr, w', r) ->
  Forall (fun p => well_behaved p = true) (posts tr) ->
  r = Ok tt.
Proof.
  intros Hs H Hwb. unfold deploy_zero_trust_resources in H. run_inv.
  match goal with
  | L : for_each _ _ _ = _ |- _ => apply for_each_loop_run in L;
      eapply (loop_returns deployable_resource) in L; [exact L| |exact Hs|]
  end.
  - intros x w0 tr0 w0' r0 Hx. now apply deploy_zero_trust_resource_returns.
  - rewrite posts_app in Hwb. apply Forall_app in Hwb. apply Hwb.
Qed.

Lemma validations_log lvl msg args : validations [Log lvl msg args] = [].
Proof. reflexivity. Qed.

Lemma instantiations_log lvl msg args :
  instantiations [Log lvl msg args] = [].
Proof. reflexivity. Qed.

Lemma only_instantiations t tr :
  Forall (fun p => p.1.1 = Instantiate /\ for_template t p) (posts tr) ->
  validations tr = [] /\ instantiations tr = posts tr.
Proof.
  unfold validations, instantiations. generalize (posts tr). intros ps.
  induction 1 as [|[[ep d] o] ps [Hp _] _ [IH1 IH2]]; [split; reflexivity|].
  cbn [fst] in Hp. subst ep.
  cbn [List.filter is_validate fst snd negb].
  split; [exact IH1|]. now rewrite IH2.
Qed.

Lemma length_select {A} bs (l : list A) :
  length bs = length l ->
  length (select bs l) = length (List.filter (fun b : bool => b) bs).
Proof.
  revert l. induction bs as [|b bs IH]; intros [|x l] Hlen;
    try discriminate Hlen; [reflexivity|].
  injection Hlen as Hlen. cbn [select List.filter].
  destruct b; cbn [length]; now rewrite IH.
Qed.

(** X10: a deployable infrastructure on a backend that answers every
    request with a well-formed result is deployed to the end: [main]
    returns normally, every server is validated, and there is exactly one
    instantiation for each accepted server, each service, each database
    and each secure resource. *)
Theorem deployable_infrastructure_completes infra w :
  let run := main_body backend infra w in
  deployable infra ->
  Forall (fun p => well_behaved p = true) (posts run.1.1) ->
  run.2 = Ok tt /\
  length (validations run.1.1)
  = length (tier_entities (web_tier infra)) /\
  length (instantiations run.1.1)
  = (length (List.filter (fun b : bool => b) (verdicts run.1.1))
     + length (tier_entities (app_tier infra))
     + length (tier_entities (data_tier infra))
     + length (tier_entities (secure_resources infra)))%nat.
Proof.
  intros run. subst run.
  destruct (main_body backend infra w) as [[tr w'] r] eqn:H.
  cbn [fst snd]. intros (Hweb & Happ & Hdata & Hsec) Hwb.
  unfold main_body in H. run_inv.
  all: rewrite ?posts_app, ?Forall_app in Hwb; destruct_and?.
  all: try match goal with
         | T : deploy_web_tier _ _ _ _ = (_, _, Raise _) |- _ =>
             apply deploy_web_tier_returns in T;
             [discriminate T|assumption..]
         | T : deploy_microservices _ _ _ _ = (_, _, Raise _) |- _ =>
             apply deploy_microservices_returns in T;
             [discriminate T|assumption..]
         | T : deploy_databases _ _ _ _ = (_, _, Raise _) |- _ =>
             apply deploy_databases_returns in T;
             [discriminate T|assumption..]
         | T : deploy_zero_trust_resources _ _ _ _ = (_, _, Raise _) |- _ =>
             apply deploy_zero_trust_resources_returns in T;
             [discriminate T|assumption..]
         end.
  repeat match goal with u : unit |- _ => destruct u end.
  repeat match goal with
    | T : deploy_web_tier _ _ _ _ = _ |- _ =>
        apply deploy_web_tier_posts in T; destruct T as (_ & _ & T);
        destruct (T eq_refl) as [? ?]; clear T
    | T : deploy_microservices _ _ _ _ = _ |- _ =>
        apply deploy_microservices_posts in T; destruct T as (? & T);
        specialize (T eq_refl)
    | T : deploy_databases _ _ _ _ = _ |- _ =>
        apply deploy_databases_posts in T; destruct T as (? & T);
        specialize (T eq_refl)
    | T : deploy_zero_trust_resources _ _ _ _ = _ |- _ =>
        apply deploy_zero_trust_resources_posts in T; destruct T as (? & T);
        specialize (T eq_refl)
    end.
  repeat match goal with
    | F : Forall (fun p => p.1.1 = Instantiate /\ _) (posts _) |- _ =>
        apply only_instantiations in F; destruct F as [? ?]
    end.
  split; [reflexivity|].
  rewrite !validations_app, !instantiations_app, !verdicts_app.
  rewrite !validations_log, !instantiations_log.
  unfold verdicts at 1 3 4 5 6. rewrite !validations_log.
  repeat match goal with
    | E : validations _ = [] |- _ => rewrite E; clear E
    | E : instantiations _ = posts _ |- _ => rewrite E; clear E
    end.
  cbn [fmap list_fmap app]. rewrite ?app_nil_r.
  repeat match goal with
    | A : attempted _ _ _ _ |- _ => apply Forall2_length in A
    end.
  match goal with
  | V : length (tier_entities (web_tier infra)) = length (validations ?t)
    |- _ =>
      pose proof (length_select (verdicts t) (tier_entities (web_tier infra)))
        as Hsel;
      unfold verdicts at 1 in Hsel; rewrite length_fmap in Hsel;
      specialize (Hsel (eq_sym V))
  end.
  rewrite !length_app. split; lia.
Qed.

(** *** How many requests a run can send *)

Lemma loop_request_bound {A} (body : A -> M World unit) k l w tr w' r :
  (forall x w tr w' r,
      body x w = (tr, w', r) -> (length (posts tr) <= k)%nat) ->
  loop_run body l w tr w' r ->
  (length (posts tr) <= k * length l)%nat.
Proof.
  intros Hb Hl. induction Hl as [w | x l w t0 w' e Hx
                                | x l w t1 w1 t2 w2 r Hx Hl IH];
    cbn [length].
  - cbn. lia.
  - apply Hb in Hx. lia.
  - apply Hb in Hx. rewrite posts_app, length_app. lia.
Qed.

Lemma single_request_bound t switch vars_of tr r :
  single_request t switch vars_of tr r -> (length (posts tr) <= 1)%nat.
Proof.
  intros [[-> _] | (vars & out & _ & ->)]; cbn [length]; lia.
Qed.

Lemma deploy_web_tier_request_bound servers switch w tr w' r :
  deploy_web_tier backend servers switch w = (tr, w', r) ->
  (length (posts tr) <= 2 * length servers)%nat.
Proof.
  unfold deploy_web_tier. intros H. run_inv.
  match goal with
  | L : for_each _ _ _ = _ |- _ => apply for_each_loop_run in L;
      apply (loop_request_bound _ 2) in L;
      [rewrite posts_app, posts_log; exact L|]
  end.
  intros x w0 tr0 w0' r0 Hx. apply deploy_web_server_posts in Hx.
  destruct Hx as [[-> _]
                 | [(? & ? & _ & -> & _)
                   | (? & ? & ? & ? & _ & _ & -> & _)]];
    cbn [length]; lia.
Qed.

Lemma deploy_microservices_request_bound services switch w tr w' r :
  deploy_microservices backend services switch w = (tr, w', r) ->
  (length (posts tr) <= length services)%nat.
Proof.
  unfold deploy_microservices. intros H. run_inv.
  - cbn. lia.
  - match goal with
    | L : for_each _ _ _ = _ |- _ => apply for_each_loop_run in L;
        apply (loop_request_bound _ 1) in L;
        [rewrite !posts_app, posts_log, posts_nil; cbn [app]; lia|]
    end.
    intros x w0 tr0 w0' r0 Hx.
    eapply single_request_bound, deploy_microservice_posts, Hx.
Qed.

Lemma deploy_databases_request_bound databases switch w tr w' r :
  deploy_databases backend databases switch w = (tr, w', r) ->
  (length (posts tr) <= length databases)%nat.
Proof.
  unfold deploy_databases. intros H. run_inv.
  match goal with
  | L : for_each _ _ _ = _ |- _ => apply for_each_loop_run in L;
      apply (loop_request_bound _ 1) in L;
      [rewrite posts_app, posts_log; cbn [app]; lia|]
  end.
  intros x w0 tr0 w0' r0 Hx.
  eapply single_request_bound, deploy_database_posts, Hx.
Qed.

Lemma deploy_zero_trust_resources_request_bound resources switch w tr w' r :
  deploy_zero_trust_resources backend resources switch w = (tr, w', r) ->
  (length (posts tr) <= length resources)%nat.
Proof.
  unfold deploy_zero_trust_resources. intros H. run_inv.
  match goal with
  | L : for_each _ _ _ = _ |- _ => apply for_each_loop_run in L;
      apply (loop_request_bound _ 1) in L;
      [rewrite posts_app, posts_log; cbn [app]; lia|]
  end.
  intros x w0 tr0 w0' r0 Hx.
  eapply single_request_bound, deploy_zero_trust_resource_posts, Hx.
Qed.

(** X4: whatever the backend answers, a run of [main] sends at most two
    requests for each server and one for each service, database and
    secure resource; with no entity in any tier it sends none. *)
Theorem requests_bounded infra w :
  (length (posts (main_body backend infra w).1.1)
   <= 2 * length (tier_entities (web_tier infra))
      + length (tier_entities (app_tier infra))
      + length (tier_entities (data_tier infra))
      + length (tier_entities (secure_resources infra)))%nat.
Proof.
  destruct (main_body backend infra w) as [[tr w'] r] eqn:H.
  cbn [fst snd]. unfold main_body in H. run_inv.
  all: repeat match goal with
         | T : deploy_web_tier _ _ _ _ = _ |- _ =>
             apply deploy_web_tier_request_bound in T
         | T : deploy_microservices _ _ _ _ = _ |- _ =>
             apply deploy_microservices_request_bound in T
         | T : deploy_databases _ _ _ _ = _ |- _ =>
             apply deploy_databases_request_bound in T
         | T : deploy_zero_trust_resources _ _ _ _ = _ |- _ =>
             apply deploy_zero_trust_resources_request_bound in T
         end.
  all: rewrite !posts_app, ?posts_log, ?posts_nil, !length_app;
    cbn [length]; lia.
Qed.

End Runs.

(** ** The variable builders, claim by claim *)

Lemma get_default (d : dict) k dflt : get d k dflt = default dflt (d !! k).
Proof. unfold get. destruct (d !! k); reflexivity. Qed.

(** C7: the variable set of a server carries its [ip], and for
    [allowed_sources], [enable_ssh] and [ssh_sources] the attribute of the
    server when it has one and else the defaults ["0.0.0.0/0"], [True] and
    ["10.0.100.0/24"]; the validation and the instantiation call build the
    same set. *)
Theorem web_server_defaults (server : dict) ip :
  server !! "ip" = Some ip ->
  exists vars,
    web_server_validate_variables server = Ok vars /\
    web_server_instantiate_variables server = Ok vars /\
    vars !! "server_ip" = Some ip /\
    vars !! "allowed_sources" =
      Some (default (PStr "0.0.0.0/0") (server !! "allowed_sources")) /\
    vars !! "enable_ssh" =
      Some (default (PBool true) (server !! "enable_ssh")) /\
    vars !! "ssh_sources" =
      Some (default (PStr "10.0.100.0/24") (server !! "ssh_sources")).
Proof.
  intros Hip.
  unfold web_server_validate_variables, web_server_instantiate_variables,
    getitem.
  rewrite Hip. cbn [mbind result_bind]. eexists.
  split; [reflexivity|]. split; [reflexivity|].
  rewrite <- !get_default. repeat split; vm_compute; reflexivity.
Qed.

(** C8: the [authorized_users] variable of a secure resource is the
    comma-joined string of its authorized-user addresses in their order,
    and [require_encryption] is the attribute of the resource when it has
    one and else [True]. *)
Theorem zero_trust_authorized_users (resource : dict) ip port users :
  resource !! "ip" = Some ip ->
  resource !! "port" = Some port ->
  resource !! "authorized_users" = Some (strs users) ->
  exists vars,
    zero_trust_variables resource = Ok vars /\
    vars !! "authorized_users" = Some (PStr (String.concat "," users)) /\
    vars !! "require_encryption" =
      Some (default (PBool true) (resource !! "require_encryption")).
Proof.
  intros Hip Hport Husers. unfold zero_trust_variables, getitem.
  rewrite Hip, Hport, Husers. cbn [mbind result_bind].
  rewrite str_join_strs. cbn [mbind result_bind]. eexists.
  split; [reflexivity|]. rewrite <- get_default.
  split; vm_compute; reflexivity.
Qed.

(** C10: the variable set of a database always has the keys
    [backup_server], [enable_replication] and [replica_ips]: with the
    attribute absent they hold [None], [False] and the empty string. *)
Theorem database_absent_attributes (db : dict) port vars :
  database_variables db port = Ok vars ->
  (db !! "backup_server" = None -> vars !! "backup_server" = Some PNone) /\
  (db !! "enable_replication" = None ->
   vars !! "enable_replication" = Some (PBool false)) /\
  (db !! "replicas" = None -> vars !! "replica_ips" = Some (PStr EmptyString)).
Proof.
  unfold database_variables. intros H.
  destruct (getitem db "ip") as [db_ip|]; [|discriminate H].
  destruct (getitem db "app_subnet") as [app_subnet|]; [|discriminate H].
  cbn [mbind result_bind] in H.
  destruct (str_join "," (get db "replicas" (PList []))) as [replica_ips|]
    eqn:Ej; [|discriminate H].
  cbn [mbind result_bind] in H. injection H as <-.
  split; [|split].
  - intros Hb. rewrite (get_None _ _ _ Hb). vm_compute. reflexivity.
  - intros He. rewrite (get_None _ _ _ He). vm_compute. reflexivity.
  - intros Hr. rewrite (get_None _ _ _ Hr) in Ej. injection Ej as <-.
    vm_compute. reflexivity.
Qed.

Lemma default_ports_lookup (type : string) :
  pydict_get default_ports (PStr type) (PInt 3306) =
  Ok (PInt (resolvePort type)).
Proof.
  unfold pydict_get, default_ports, resolvePort.
  cbn [hashable pydict_lookup key_eqb].
  repeat (case_bool_decide; subst; [reflexivity|]; case_decide;
          [congruence|]).
  reflexivity.
Qed.

(** C5: for a database whose engine type is the string [type], the
    [db_port] variable is the explicit [port] attribute when there is one,
    and else the port of the lookup table for [type], 3306 for a type
    outside the table. *)
Theorem database_port_default (db : dict) type vars :
  db !! "type" = Some (PStr type) ->
  database_request_variables db = Ok vars ->
  vars !! "db_port" =
    Some (default (PInt (resolvePort type)) (db !! "port")) /\
  resolvePort "mysql" = 3306%Z /\
  resolvePort "postgresql" = 5432%Z /\
  resolvePort "mongodb" = 27017%Z /\
  resolvePort "redis" = 6379%Z /\
  (type <> "mysql" -> type <> "postgresql" -> type <> "mongodb" ->
   type <> "redis" -> resolvePort type = 3306%Z).
Proof.
  intros Htype H. split.
  - unfold database_request_variables, database_port, getitem in H.
    rewrite Htype in H. cbn [mbind result_bind] in H.
    rewrite default_ports_lookup in H. cbn [mbind result_bind] in H.
    unfold database_variables in H.
    destruct (getitem db "ip") as [db_ip|]; [|discriminate H].
    destruct (getitem db "app_subnet") as [app_subnet|]; [|discriminate H].
    cbn [mbind result_bind] in H.
    destruct (str_join "," (get db "replicas" (PList []))) as [replica_ips|];
      [|discriminate H].
    cbn [mbind result_bind] in H. injection H as <-.
    rewrite <- get_default. vm_compute. reflexivity.
  - repeat split; try reflexivity.
    intros N1 N2 N3 N4. unfold resolvePort.
    repeat (case_decide; [congruence|]). reflexivity.
Qed.

(** *** Dependency resolution *)

Lemma key_eqb_PStr_r k0 k :
  key_eqb k0 (PStr k) = true -> k0 = PStr k.
Proof.
  destruct k0; cbn; try discriminate. intros H.
  apply bool_decide_eq_true in H. congruence.
Qed.

Lemma pydict_lookup_store d (k : string) v (k' : string) :
  pydict_lookup (pydict_store d (PStr k) v) (PStr k') =
  if decide (k = k') then Some v else pydict_lookup d (PStr k').
Proof.
  induction d as [|[k0 v0] d IH]; cbn [pydict_store pydict_lookup].
  - cbn [key_eqb]. case_bool_decide; case_decide; congruence.
  - destruct (key_eqb k0 (PStr k)) eqn:E; cbn [pydict_lookup].
    + apply key_eqb_PStr_r in E. subst k0. cbn [key_eqb].
      case_bool_decide; case_decide; congruence.
    + rewrite IH. destruct (key_eqb k0 (PStr k')) eqn:E'; [|reflexivity].
      apply key_eqb_PStr_r in E'. subst k0. cbn [key_eqb] in E.
      apply bool_decide_eq_false in E. case_decide; congruence.
Qed.

Lemma tier_ip_absent services name :
  name ∉ service_names services -> tier_ip services name = None.
Proof.
  unfold tier_ip, service_names.
  induction services as [|s services IH]; [reflexivity|].
  cbn [omap list_omap List.find]. intros Hn.
  case_bool_decide as E.
  - rewrite E in Hn. exfalso. apply Hn. left.
  - apply IH. intros Hin. apply Hn.
    destruct (service_name s); [right|]; exact Hin.
Qed.

Lemma build_service_ips_lookup services acc :
  Forall well_formed_service services ->
  NoDup (service_names services) ->
  exists service_ips,
    build_service_ips services acc = Ok service_ips /\
    forall name,
      pydict_lookup service_ips (PStr name) =
      match tier_ip services name with
      | Some ip => Some ip
      | None => pydict_lookup acc (PStr name)
      end.
Proof.
  intros Hwf. revert acc.
  induction Hwf as [|s services [[n Hn] [ip Hip]] _ IH]; intros acc Hnd.
  - exists acc. split; reflexivity.
  - unfold service_names in Hnd. cbn [omap list_omap] in Hnd.
    rewrite Hn in Hnd. apply NoDup_cons in Hnd. destruct Hnd as [Hfresh Hnd].
    assert (Hname : s !! "name" = Some (PStr n)).
    { unfold service_name in Hn.
      destruct (s !! "name") as [[| | |n'|]|]; try discriminate Hn.
      congruence. }
    cbn [build_service_ips]. unfold getitem. rewrite Hname, Hip.
    cbn [mbind result_bind hashable].
    destruct (IH (pydict_store acc (PStr n) ip) Hnd) as (d & Hd & Hlook).
    exists d. split; [exact Hd|]. intros name. rewrite Hlook.
    rewrite pydict_lookup_store. unfold tier_ip at 2. cbn [List.find].
    rewrite Hn. case_decide as E.
    + subst name. rewrite bool_decide_eq_true_2 by reflexivity.
      cbn [mbind option_bind]. rewrite Hip.
      now rewrite (tier_ip_absent _ _ Hfresh).
    + rewrite bool_decide_eq_false_2 by congruence. reflexivity.
Qed.

Lemma resolve_dependencies_resolve services service_ips deps acc :
  (forall name,
      pydict_lookup service_ips (PStr name) = tier_ip services name) ->
  resolve_dependencies service_ips (PStr <$> deps) acc =
  Ok (acc ++ resolve services deps).
Proof.
  intros Hlook. revert acc.
  induction deps as [|dep deps IH]; intros acc.
  - cbn. now rewrite app_nil_r.
  - rewrite fmap_cons. cbn [resolve_dependencies].
    unfold pydict_contains, pydict_getitem. cbn [hashable mbind result_bind].
    rewrite Hlook. unfold resolve. cbn [omap list_omap].
    destruct (tier_ip services dep) as [ip|].
    + rewrite bool_decide_eq_true_2 by eauto. cbn [mbind result_bind].
      rewrite IH. unfold resolve. now rewrite <- app_assoc.
    + rewrite bool_decide_eq_false_2 by (intros [? ?]; discriminate).
      apply IH.
Qed.

(** C4: in a tier whose services are well formed and have distinct names,
    the allowed-IP list of a service is the list of the IPs of those of
    its dependency names that name a service of the tier, in the order the
    dependencies are listed; a name that no service of the tier has is
    left out. *)
Theorem dependency_resolution_in_order services (service : dict) deps :
  Forall well_formed_service services ->
  NoDup (service_names services) ->
  service !! "dependencies" = Some (strs deps) ->
  exists service_ips,
    build_service_ips services [] = Ok service_ips /\
    allowed_ips_of service_ips service = Ok (resolve services deps).
Proof.
  intros Hwf Hnd Hdeps.
  destruct (build_service_ips_lookup services [] Hwf Hnd)
    as (d & Hd & Hlook).
  exists d. split; [exact Hd|].
  unfold allowed_ips_of. rewrite (get_Some _ _ _ _ Hdeps).
  unfold strs. cbn [py_iter mbind result_bind].
  rewrite (resolve_dependencies_resolve services); [reflexivity|].
  intros name. rewrite Hlook. now destruct (tier_ip services name).
Qed.

(** ** Determinism of the variable builders *)

Lemma deploy_entity_posts {World : Type}
    (backend : World -> endpoint -> request -> World * http_outcome)
    k service_ips switch entity w p :
  In p (posts (deploy_entity backend k service_ips switch entity w).1.1) ->
  entity_variables k service_ips entity = Ok (variables p.1.2).
Proof.
  destruct (deploy_entity backend k service_ips switch entity w)
    as [[tr w'] r] eqn:H.
  cbn [fst snd]. intros Hin.
  assert (Hsingle : forall t vars_of,
             single_request t switch vars_of tr r ->
             vars_of = Ok (variables p.1.2)).
  { intros t vars_of [[E _] | (vars & out & Hv & E)];
      rewrite E in Hin; [destruct Hin|].
    destruct Hin as [<- | []]. cbn [fst snd].
    now rewrite variables_instantiate_data. }
  destruct k; cbn [deploy_entity entity_variables] in *.
  - apply deploy_web_server_posts in H.
    destruct H as [[E _]
                  | [(vars & out & Hv & E & _)
                    | (vars & vars' & outv & outi & Hv & Hi & E & _)]];
      rewrite E in Hin.
    + destruct Hin.
    + destruct Hin as [<- | []]. exact Hv.
    + destruct Hin as [<- | [<- | []]]; cbn [fst snd].
      * exact Hv.
      * rewrite variables_instantiate_data. exact Hi.
  - eapply Hsingle, deploy_microservice_posts, H.
  - eapply Hsingle, deploy_database_posts, H.
  - eapply Hsingle, deploy_zero_trust_resource_posts, H.
Qed.

(** C9: for every entity kind, two deployments of the same entity in the
    same tier context send the same variable mapping, whatever the
    backends and their states are, and whichever of the requests for the
    entity are compared: the variables are a function of the entity and of
    the tier context alone. *)
Theorem variable_construction_deterministic {W1 W2 : Type}
    (backend1 : W1 -> endpoint -> request -> W1 * http_outcome)
    (backend2 : W2 -> endpoint -> request -> W2 * http_outcome)
    k service_ips switch entity w1 w2 p1 p2 :
  In p1 (posts (deploy_entity backend1 k service_ips switch entity w1).1.1) ->
  In p2 (posts (deploy_entity backend2 k service_ips switch entity w2).1.1) ->
  variables p1.1.2 = variables p2.1.2.
Proof.
  intros H1 H2.
  apply deploy_entity_posts in H1. apply deploy_entity_posts in H2.
  congruence.
Qed.

(** ** Instances *)

(** Against C1 as stated: the application tier instantiates its first
    service although no validation request precedes the instantiation. *)
Lemma microservices_instantiate_unvalidated :
  ~ validation_gates_instantiation
      (deploy_microservices stub_backend [service_A; service_B] "ls-app"
                            0%nat).1.1.
Proof.
  intros G.
  edestruct (G 0%nat) as (j & dv & outv & Hj & _); [vm_compute; reflexivity|].
  lia.
Qed.

Lemma service_error_aborts_run_witness :
  (main_body (outage_backend 2) infrastructure 0%nat).2
  = Raise (HTTPError 503) /\
  drop 8 (main_body (outage_backend 2) infrastructure 0%nat).1.1
  = [Log ERROR "Deployment failed: {}" [AExn (HTTPError 503)]].
Proof.
  eapply (service_error_aborts_run (outage_backend 2) infrastructure 0%nat 7).
  - vm_compute. reflexivity.
  - vm_compute. reflexivity.
Defined.

Lemma one_rejection_skips_one_instantiation_witness :
  let run := deploy_web_tier stub_backend three_servers "ls-web" 0%nat in
  run.2 = Ok tt /\
  attempted web_server_validate_variables Validate three_servers
            (validations run.1.1) /\
  attempted web_server_instantiate_variables Instantiate
            (delete 1%nat three_servers) (instantiations run.1.1) /\
  length (instantiations run.1.1) = 2%nat.
Proof.
  apply (one_rejection_skips_one_instantiation stub_backend three_servers
           "ls-web" 0%nat 1%nat).
  - repeat constructor; eexists; vm_compute; reflexivity.
  - vm_compute. repeat constructor.
  - intros [|[|[|j]]]; vm_compute; split; intros H;
      first [reflexivity | discriminate].
Defined.

Lemma dependency_resolution_in_order_witness :
  exists service_ips,
    build_service_ips [service_A; service_B] [] = Ok service_ips /\
    allowed_ips_of service_ips service_A = Ok [PStr "ip2"].
Proof.
  apply (dependency_resolution_in_order [service_A; service_B] service_A ["B"; "Z"]).
  - repeat constructor; eexists; vm_compute; reflexivity.
  - apply (bool_decide_unpack _). vm_compute. exact I.
  - vm_compute. reflexivity.
Defined.

Lemma database_port_default_witness :
  ({[ "db_ip" := PStr "10.0.3.40"; "db_port" := PInt 3306;
      "app_subnet" := PStr "10.0.2.0/24"; "backup_server" := PNone;
      "enable_replication" := PBool false; "replica_ips" := PStr EmptyString ]}
   : dict) !! "db_port" = Some (PInt 3306).
Proof.
  refine (proj1 (database_port_default oracle_db "oracle" _ _ _)).
  - vm_compute. reflexivity.
  - vm_compute. reflexivity.
Defined.

Lemma web_server_defaults_witness :
  exists vars,
    web_server_validate_variables web_1 = Ok vars /\
    web_server_instantiate_variables web_1 = Ok vars /\
    vars !! "server_ip" = Some (PStr "10.0.1.10") /\
    vars !! "allowed_sources" = Some (PStr "0.0.0.0/0") /\
    vars !! "enable_ssh" = Some (PBool true) /\
    vars !! "ssh_sources" = Some (PStr "10.0.100.0/24").
Proof.
  refine (web_server_defaults web_1 (PStr "10.0.1.10") _).
  vm_compute. reflexivity.
Defined.

Lemma zero_trust_authorized_users_witness :
  exists vars,
    zero_trust_variables
      {[ "name" := PStr "vault"; "ip" := PStr "10.0.5.30";
         "port" := PInt 8200;
         "authorized_users" := strs ["10.0.100.10"; "10.0.100.11"] ]}
    = Ok vars /\
    vars !! "authorized_users" = Some (PStr "10.0.100.10,10.0.100.11") /\
    vars !! "require_encryption" = Some (PBool true).
Proof.
  refine (zero_trust_authorized_users _ (PStr "10.0.5.30") (PInt 8200)
            ["10.0.100.10"; "10.0.100.11"] _ _ _);
    vm_compute; reflexivity.
Defined.

Lemma database_absent_attributes_witness :
  let vars : dict :=
    {[ "db_ip" := PStr "10.0.3.40"; "db_port" := PInt 3306;
       "app_subnet" := PStr "10.0.2.0/24"; "backup_server" := PNone;
       "enable_replication" := PBool false; "replica_ips" := PStr EmptyString ]} in
  (oracle_db !! "backup_server" = None ->
   vars !! "backup_server" = Some PNone) /\
  (oracle_db !! "enable_replication" = None ->
   vars !! "enable_replication" = Some (PBool false)) /\
  (oracle_db !! "replicas" = None -> vars !! "replica_ips" = Some (PStr EmptyString)).
Proof.
  refine (database_absent_attributes oracle_db (PInt 3306) _ _).
  vm_compute. reflexivity.
Defined.

Lemma variable_construction_deterministic_witness :
  let vars : dict :=
    {[ "server_ip" := PStr "10.0.1.10";
       "allowed_sources" := PStr "0.0.0.0/0";
       "enable_ssh" := PBool true;
       "ssh_sources" := PStr "10.0.100.0/24" ]} in
  variables (validate_data "web-server" vars) =
  variables (instantiate_data "web-server" vars (Some "ls-web") false).
Proof.
  refine (variable_construction_deterministic
            stub_backend (outage_backend 5) Server [] "ls-web" web_1
            0%nat 3%nat
            (Validate, validate_data "web-server" _,
             Response 200 (Some accepted))
            (Instantiate,
             instantiate_data "web-server" _ (Some "ls-web") false,
             Response 201 (Some created)) _ _).
  - vm_compute. left. reflexivity.
  - vm_compute. right. left. reflexivity.
Defined.

(** ** The client object and list_templates *)

Lemma rstrip_slash_append_slash s :
  rstrip_slash (String.append s "/") = rstrip_slash s.
Proof.
  induction s as [|c s IH]; [reflexivity|].
  change (String.append (String c s) "/")
    with (String c (String.append s "/")).
  cbn [rstrip_slash]. now rewrite IH.
Qed.

Lemma append_slash_nonempty s : String.append s "/" <> EmptyString.
Proof. destruct s; discriminate. Qed.

Lemma rstrip_slash_spec s :
  (exists n, s = String.append (rstrip_slash s) (slashes n)) /\
  (forall s', rstrip_slash s <> String.append s' "/").
Proof.
  induction s as [|c s [[n IHn] IHs]].
  - split; [now exists 0%nat|]. intros s' H. symmetry in H.
    now apply append_slash_nonempty in H.
  - cbn [rstrip_slash]. destruct (rstrip_slash s) as [|c' r] eqn:E.
    + simpl in IHn. subst s.
      destruct (Ascii.eqb c "/") eqn:Ec.
      * apply Ascii.eqb_eq in Ec. subst c. split; [now exists (S n)|].
        intros s' H. symmetry in H. now apply append_slash_nonempty in H.
      * apply Ascii.eqb_neq in Ec. split; [now exists n|].
        intros [|c0 s'] H; simpl in H.
        -- vm_compute in H. injection H as Hc. contradiction.
        -- injection H as _ H. symmetry in H.
           now apply append_slash_nonempty in H.
    + split.
      * exists n. rewrite IHn at 1. reflexivity.
      * intros [|c0 s'] H; simpl in H; [discriminate|].
        injection H as _ H. now apply IHs in H.
Qed.

(** X1: the client keeps the base URL without its trailing slashes: the
    URL given is the stored one followed by slashes only, the stored one
    does not end in a slash, and one more slash at the end of the URL
    given makes no difference to the client. *)
Theorem base_url_normalised url token :
  (exists n,
      url = String.append (base_url (new_client url token)) (slashes n)) /\
  (forall s', base_url (new_client url token) <> String.append s' "/") /\
  new_client (String.append url "/") token = new_client url token.
Proof.
  unfold new_client. cbn [base_url].
  destruct (rstrip_slash_spec url) as [Hn Hs].
  split; [exact Hn|]. split; [exact Hs|].
  now rewrite rstrip_slash_append_slash.
Qed.

(** X2: [list_templates] sends one request whose query has the category
    only when it is a non-empty string and the tags only when the list is
    not empty; it returns the [templates] member of the answer exactly
    when the status is outside 400-599 and the body decodes to an object
    with that member, and raises otherwise. *)
Theorem list_templates_query_and_result {World : Type}
    (http_get : World -> templates_query -> World * http_outcome)
    category tags w :
  let '(params, out, w', r) := list_templates http_get category tags w in
  http_get w params = (w', out) /\
  (forall c, q_category params = Some c <->
             category = Some c /\ c <> EmptyString) /\
  (forall l, q_tag params = Some l <-> tags = Some l /\ l <> []) /\
  (forall ts, r = Ok ts <->
              exists status body,
                out = Response status (Some body) /\
                ~ (400 <= status < 600)%Z /\
                json_getitem body "templates" = Ok ts).
Proof.
  unfold list_templates.
  destruct (http_get w (list_templates_params category tags))
    as [w' out] eqn:Hget.
  split; [exact Hget|]. split; [|split].
  - intros c. unfold list_templates_params. cbn [q_category].
    destruct category as [c0|]; [|split; [discriminate|intros [[=] _]]].
    destruct (String.eqb c0 EmptyString) eqn:E; cbn [negb].
    + apply String.eqb_eq in E. subst c0.
      split; [discriminate|]. intros [[= <-] Hne]. now destruct Hne.
    + apply String.eqb_neq in E. split.
      * intros [= <-]. auto.
      * intros [[= <-] _]. reflexivity.
  - intros l. unfold list_templates_params. cbn [q_tag].
    destruct tags as [[|t ts]|].
    + split; [discriminate|]. intros [[= <-] Hne]. now destruct Hne.
    + split; [intros [= <-]; split; [reflexivity|discriminate]|].
      intros [[= <-] _]. reflexivity.
    + split; [discriminate|intros [[=] _]].
  - intros ts. destruct out as [|status body].
    + split; [discriminate|]. intros (? & ? & [=] & _).
    + unfold raise_for_status, response_json. cbn [fst snd].
      case_bool_decide as Hst; cbn [mbind result_bind].
      * split; [discriminate|]. intros (? & ? & [= ? ?] & Hn & _).
        subst. now destruct Hn.
      * destruct body as [j|]; cbn [mbind result_bind].
        -- split; [intros Hj; eauto 6|].
           intros (? & ? & [= ? ?] & _ & Hj). subst. exact Hj.
        -- split; [discriminate|]. intros (? & ? & [=] & _).
Qed.

(** ** More on the variable builders *)

Lemma tier_ip_snoc services s name :
  Forall well_formed_service services ->
  tier_ip (services ++ [s]) name =
  match tier_ip services name with
  | Some ip => Some ip
  | None => if bool_decide (service_name s = Some name) then s !! "ip"
            else None
  end.
Proof.
  unfold tier_ip. induction 1 as [|s0 l [_ [ip Hip]] _ IH];
    cbn [app List.find].
  - destruct (bool_decide (service_name s = Some name)); reflexivity.
  - destruct (bool_decide (service_name s0 = Some name)); [|exact IH].
    cbn [mbind option_bind]. now rewrite Hip.
Qed.

Lemma build_service_ips_lookup_last services acc :
  Forall well_formed_service services ->
  exists service_ips,
    build_service_ips services acc = Ok service_ips /\
    forall name,
      pydict_lookup service_ips (PStr name) =
      match tier_ip_last services name with
      | Some ip => Some ip
      | None => pydict_lookup acc (PStr name)
      end.
Proof.
  intros Hwf. revert acc.
  induction Hwf as [|s services [[n Hn] [ip Hip]] Hwf IH]; intros acc.
  - exists acc. split; reflexivity.
  - assert (Hname : s !! "name" = Some (PStr n)).
    { unfold service_name in Hn.
      destruct (s !! "name") as [[| | |n'|]|]; try discriminate Hn.
      congruence. }
    cbn [build_service_ips]. unfold getitem. rewrite Hname, Hip.
    cbn [mbind result_bind hashable].
    destruct (IH (pydict_store acc (PStr n) ip)) as (d & Hd & Hlook).
    exists d. split; [exact Hd|]. intros name. rewrite Hlook.
    unfold tier_ip_last. rewrite reverse_cons.
    rewrite tier_ip_snoc by now apply Forall_reverse.
    destruct (tier_ip (reverse services) name); [reflexivity|].
    rewrite pydict_lookup_store, Hn.
    case_decide as E.
    + subst name. rewrite bool_decide_eq_true_2 by reflexivity.
      now rewrite Hip.
    + rewrite bool_decide_eq_false_2 by congruence. reflexivity.
Qed.

(** X7: when several services of a tier have the same name, the IP of
    the last of them is the one a dependency on that name resolves to. *)
Theorem duplicate_names_last_wins services (service : dict) deps :
  Forall well_formed_service services ->
  service !! "dependencies" = Some (strs deps) ->
  exists service_ips,
    build_service_ips services [] = Ok service_ips /\
    allowed_ips_of service_ips service
    = Ok (omap (tier_ip_last services) deps).
Proof.
  intros Hwf Hdeps.
  destruct (build_service_ips_lookup_last services [] Hwf)
    as (d & Hd & Hlook).
  exists d. split; [exact Hd|].
  unfold allowed_ips_of. rewrite (get_Some _ _ _ _ Hdeps).
  unfold strs. cbn [py_iter mbind result_bind].
  rewrite (resolve_dependencies_resolve (reverse services));
    [reflexivity|].
  intros name. rewrite Hlook. unfold tier_ip_last.
  now destruct (tier_ip (reverse services) name).
Qed.

(** X8: the variable set of a service carries its name and IP, its port
    or 8080 when it has none, the comma-joined allowed IPs and the fixed
    monitoring subnet 10.0.200.0/24; a service without a [dependencies]
    attribute allows no IP at all. *)
Theorem microservice_defaults (service : dict) name ip ips service_ips :
  service !! "name" = Some name ->
  service !! "ip" = Some ip ->
  (exists vars,
      microservice_variables service (PStr <$> ips) = Ok vars /\
      vars !! "service_name" = Some name /\
      vars !! "service_ip" = Some ip /\
      vars !! "service_port" = Some (default (PInt 8080) (service !! "port")) /\
      vars !! "allowed_services" = Some (PStr (String.concat "," ips)) /\
      vars !! "monitoring_subnet" = Some (PStr "10.0.200.0/24")) /\
  (service !! "dependencies" = None ->
   allowed_ips_of service_ips service = Ok []).
Proof.
  intros Hname Hip. split.
  - unfold microservice_variables, getitem. rewrite Hname, Hip.
    cbn [mbind result_bind].
    change (PList (PStr <$> ips)) with (strs ips). rewrite str_join_strs.
    cbn [mbind result_bind]. eexists. split; [reflexivity|].
    rewrite <- get_default. repeat split; vm_compute; reflexivity.
  - intros Hdeps. unfold allowed_ips_of. rewrite (get_None _ _ _ Hdeps).
    reflexivity.
Qed.

(** X9: the variable set of a database with an IP, an application subnet
    and a list of replica addresses is built, and carries the port it is
    given, the replicas comma-joined in their order, and the backup
    server and replication flag of the database when it has them. *)
Theorem database_variables_built (db : dict) ip subnet replicas port :
  db !! "ip" = Some ip ->
  db !! "app_subnet" = Some subnet ->
  db !! "replicas" = Some (strs replicas) ->
  exists vars,
    database_variables db port = Ok vars /\
    vars !! "db_ip" = Some ip /\
    vars !! "db_port" = Some port /\
    vars !! "app_subnet" = Some subnet /\
    vars !! "backup_server" = Some (default PNone (db !! "backup_server")) /\
    vars !! "enable_replication" =
      Some (default (PBool false) (db !! "enable_replication")) /\
    vars !! "replica_ips" = Some (PStr (String.concat "," replicas)).
Proof.
  intros Hip Hsub Hrep. unfold database_variables, getitem.
  rewrite Hip, Hsub. cbn [mbind result_bind].
  rewrite (get_Some _ _ _ _ Hrep), str_join_strs. cbn [mbind result_bind].
  eexists. split; [reflexivity|].
  rewrite <- !get_default. repeat split; vm_compute; reflexivity.
Qed.

(** ** More instances *)

Lemma request_fields_witness :
  let p := (Instantiate,
            instantiate_data "database-server" oracle_db_variables
                             (Some "ls-data") false,
            Response 201 (Some created)) in
  template_id p.1.2 = "database-server" /\
  dry_run p.1.2 = Some false /\ target_switch p.1.2 = Some "ls-data".
Proof.
  refine (request_fields stub_backend Database [] "ls-data" oracle_db 0%nat
            _ _).
  vm_compute. left. reflexivity.
Defined.

Lemma unbuildable_entity_not_sent_witness :
  posts (deploy_entity stub_backend SecureResource [] "ls-secure"
                       badge_reader 0%nat).1.1 = [] /\
  exists e', (deploy_entity stub_backend SecureResource [] "ls-secure"
                            badge_reader 0%nat).2 = Raise e'.
Proof.
  refine (unbuildable_entity_not_sent stub_backend SecureResource []
            "ls-secure" badge_reader 0%nat
            (TypeError "sequence item: expected str instance") _).
  vm_compute. reflexivity.
Defined.

Lemma rejected_server_reported_witness :
  deploy_web_server stub_backend "ls-web" web_2 0%nat =
  ([ Log INFO "Configuring web server {} ({})"
         [AVal (PStr "web-2"); AVal (PStr "10.0.1.11")];
     Post Validate (validate_data "web-server" web_2_variables)
          (Response 200 (Some rejected));
     Log ERROR "Validation failed for {}: {}"
         [AVal (PStr "web-2");
          AJson (JArr [JStr "server_ip is not allowed"])] ],
   1%nat, Ok tt).
Proof.
  refine (rejected_server_reported stub_backend "ls-web" web_2 0%nat
            (PStr "web-2") (PStr "10.0.1.11") web_2_variables 1%nat
            (Response 200 (Some rejected)) rejected (JBool false)
            _ _ _ _ _ _ _);
    vm_compute; reflexivity.
Defined.

Lemma accepted_server_deployed_witness :
  deploy_web_server stub_backend "ls-web" web_1 0%nat =
  ([ Log INFO "Configuring web server {} ({})"
         [AVal (PStr "web-1"); AVal (PStr "10.0.1.10")];
     Post Validate (validate_data "web-server" web_1_variables)
          (Response 200 (Some accepted));
     Post Instantiate
          (instantiate_data "web-server" web_1_variables (Some "ls-web")
                            false)
          (Response 201 (Some created));
     Log INFO "Created {} rules for {}" [ALen 3; AVal (PStr "web-1")] ],
   2%nat, Ok tt).
Proof.
  refine (accepted_server_deployed stub_backend "ls-web" web_1 0%nat
            (PStr "web-1") (PStr "10.0.1.10") web_1_variables 1%nat
            (Response 200 (Some accepted)) accepted (JBool true) 2%nat
            (Response 201 (Some created)) created 3%nat
            _ _ _ _ _ _ _ _ _ _);
    vm_compute; reflexivity.
Defined.

Lemma malformed_service_blocks_tier_witness :
  exists e,
    deploy_microservices stub_backend [service_A; nameless_service] "ls-app"
                         0%nat =
    ([Log INFO "Deploying microservices on switch {}" [AStr "ls-app"]],
     0%nat, Raise e).
Proof.
  refine (malformed_service_blocks_tier stub_backend
            [service_A; nameless_service] "ls-app" 0%nat _).
  apply Exists_cons_tl, Exists_cons_hd. left. vm_compute. reflexivity.
Defined.

Lemma deployable_infrastructure_completes_witness :
  let run := main_body stub_backend small_infrastructure 0%nat in
  run.2 = Ok tt /\
  length (validations run.1.1) = 2%nat /\
  length (instantiations run.1.1) = 5%nat.
Proof.
  refine (deployable_infrastructure_completes stub_backend
            small_infrastructure 0%nat _ _).
  - split; [|split; [|split]]; cbn [small_infrastructure tier_entities
      web_tier app_tier data_tier secure_resources].
    + constructor; [|constructor; [|constructor]];
        split; eexists; vm_compute; reflexivity.
    + constructor; [|constructor; [|constructor]].
      * split; [|split]; [eexists; vm_compute; reflexivity..|].
        right. exists ["B"; "Z"]. vm_compute. reflexivity.
      * split; [|split]; [eexists; vm_compute; reflexivity..|].
        left. vm_compute. reflexivity.
    + constructor; [|constructor].
      split; [|split; [|split; [|split]]];
        [eexists; vm_compute; reflexivity..|].
      left. vm_compute. reflexivity.
    + constructor; [|constructor].
      split; [|split; [|split]]; [eexists; vm_compute; reflexivity..|].
      exists ["10.0.100.10"; "10.0.100.11"]. vm_compute. reflexivity.
  - vm_compute. repeat constructor.
Defined.

Lemma duplicate_names_last_wins_witness :
  exists service_ips,
    build_service_ips [service_A; service_B; service_B_again] []
    = Ok service_ips /\
    allowed_ips_of service_ips service_A = Ok [PStr "ip3"].
Proof.
  refine (duplicate_names_last_wins [service_A; service_B; service_B_again]
            service_A ["B"; "Z"] _ _).
  - repeat constructor; eexists; vm_compute; reflexivity.
  - vm_compute. reflexivity.
Defined.

Lemma microservice_defaults_witness :
  (exists vars,
      microservice_variables service_B (PStr <$> ["ip1"]) = Ok vars /\
      vars !! "service_name" = Some (PStr "B") /\
      vars !! "service_ip" = Some (PStr "ip2") /\
      vars !! "service_port" = Some (PInt 8080) /\
      vars !! "allowed_services" = Some (PStr "ip1") /\
      vars !! "monitoring_subnet" = Some (PStr "10.0.200.0/24")) /\
  (service_B !! "dependencies" = None ->
   allowed_ips_of [] service_B = Ok []).
Proof.
  refine (microservice_defaults service_B (PStr "B") (PStr "ip2") ["ip1"] []
            _ _);
    vm_compute; reflexivity.
Defined.

Lemma database_variables_built_witness :
  exists vars,
    database_variables users_db (PInt 5432) = Ok vars /\
    vars !! "db_ip" = Some (PStr "10.0.3.10") /\
    vars !! "db_port" = Some (PInt 5432) /\
    vars !! "app_subnet" = Some (PStr "10.0.2.0/24") /\
    vars !! "backup_server" = Some (PStr "10.0.100.50") /\
    vars !! "enable_replication" = Some (PBool true) /\
    vars !! "replica_ips" = Some (PStr "10.0.3.11,10.0.3.12").
Proof.
  refine (database_variables_built users_db (PStr "10.0.3.10")
            (PStr "10.0.2.0/24") ["10.0.3.11"; "10.0.3.12"] (PInt 5432)
            _ _ _);
    vm_compute; reflexivity.
Defined.
